(** * Query.cpp of the D3D12 translation layer: asynchronous timestamp queries

    A shallow embedding of [Async] and [Query] (src/d3d12translationlayer/Query.cpp)
    as state-passing functions over one [World] record, in a small state and
    failure monad.  The owning [ImmediateContext], the GPU and the caller's
    destination buffer are part of the world; the parts of them that Query.cpp
    only calls into are modelled from the specification and marked as such. *)

From Stdlib Require Import ZArith Lia Bool.
From stdpp Require Import base list relations.

Local Open Scope Z_scope.

(** ** Machine integers *)

(** [UINT] is 32 bits wide and [UINT64] is 64 bits wide; both are carried as [Z]
    and every arithmetic result of the source is wrapped explicitly. *)
Definition wrap32 (z : Z) : Z := z mod 2 ^ 32.
Definition wrap64 (z : Z) : Z := z mod 2 ^ 64.

(** [sizeof(UINT64)] *)
Definition sizeof_UINT64 : Z := 8.

(** ** Windows error codes and exceptions *)

Definition HRESULT := Z.
Definition S_OK : HRESULT := 0.
(** 0x80070057 and 0x8007000E as signed 32-bit values. *)
Definition E_INVALIDARG : HRESULT := -2147024809.
Definition E_OUTOFMEMORY : HRESULT := -2147024882.
Definition FAILED (hr : HRESULT) : bool := hr <? 0.

(** The two exception types Query.cpp names in its handlers. *)
Inductive exn : Type :=
| _com_error (hr : HRESULT)
| bad_alloc.

(** How a call can end other than by returning. *)
Inductive abort : Type :=
| Thrown (e : exn)           (* an exception is propagating to the caller *)
| Terminated (e : exn)       (* an exception reached a [noexcept] boundary *)
| AssertFailed (line : nat)  (* an [assert] of the source, by line, did not hold *)
| Undefined.                 (* access outside a buffer or through a null pointer *)

(** ** Query kinds and GPU commands *)

(** Modelled from the spec: the declaration of [EQueryType] is not part of
    Query.cpp.  The source names [e_QUERY_TIMESTAMP] and gives every other
    enumerator the [default:] branch; the spec speaks of a timer kind and of
    other counter kinds.  [e_QUERY_OTHER] stands for any other enumerator. *)
Inductive EQueryType : Type :=
| e_QUERY_TIMESTAMP
| e_QUERY_OTHER.

Definition EQueryType_eqb (a b : EQueryType) : bool :=
  match a, b with
  | e_QUERY_TIMESTAMP, e_QUERY_TIMESTAMP => true
  | e_QUERY_OTHER, e_QUERY_OTHER => true
  | _, _ => false
  end.

(** Values of d3d12.h. *)
Definition D3D12_QUERY_TYPE_TIMESTAMP : Z := 2.
Definition D3D12_QUERY_HEAP_TYPE_TIMESTAMP : Z := 1.

(** The two commands [Suspend] records into the graphics command list. *)
Inductive GpuCmd : Type :=
| EndQuery (Type12 : Z) (Index : Z)
| ResolveQueryData (Type12 : Z) (StartIndex NumQueries : Z)
                   (AlignedDestinationBufferOffset : Z).

(** Calls into the owning context that change its bookkeeping. *)
Inductive Call : Type :=
| CallAdditionalCommandsAdded
| CallSubmitCommandList
| CallWaitForCompletion
| CallMap (Begin End_ : Z)
| CallUnmap (Begin End_ : Z).

(** A [void*] argument: the caller's destination buffer or [nullptr]. *)
Inductive pvoid : Type :=
| nullptr
| pDest.

(** ** The world *)

Record World : Type := mkWorld {
  (* ImmediateContext and GPU *)
  CommandListID : Z;                    (* epoch of the command list being built *)
  HasCommands : bool;                   (* the list being built is not empty *)
  CompletedFenceValue : Z;              (* last epoch the GPU finished *)
  CommandList : list GpuCmd;            (* commands of the list being built *)
  Submitted : list (Z * list GpuCmd);   (* submitted batches the GPU has not run, oldest first *)
  GpuTicks : list Z;                    (* raw counter values the GPU will produce, in order *)
  Faults : list (option exn);           (* outcome of the next fallible device calls *)
  Calls : list Call;                    (* context calls made so far, oldest first *)
  (* Async and Query members *)
  m_Type : EQueryType;
  m_EndedCommandListID : Z;
  m_CurrentInstance : Z;
  m_InstancesPerQuery : Z;
  m_LastUsedCommandListID : Z;
  QueryHeap : list Z;                   (* m_spQueryHeap: one 64-bit slot per query *)
  ResultBuffer : list Z;                (* m_spResultBuffer: the readback region, in 64-bit words *)
  ResultBufferOffset : Z;               (* m_spResultBuffer.GetOffset() *)
  (* caller memory *)
  Dest : list Z                         (* the bytes [pDest] points to *)
}.

Definition set_CommandListID (v : Z) (w : World) : World :=
  mkWorld v (HasCommands w) (CompletedFenceValue w) (CommandList w) (Submitted w)
    (GpuTicks w) (Faults w) (Calls w) (m_Type w) (m_EndedCommandListID w)
    (m_CurrentInstance w) (m_InstancesPerQuery w) (m_LastUsedCommandListID w)
    (QueryHeap w) (ResultBuffer w) (ResultBufferOffset w) (Dest w).

Definition set_HasCommands (v : bool) (w : World) : World :=
  mkWorld (CommandListID w) v (CompletedFenceValue w) (CommandList w) (Submitted w)
    (GpuTicks w) (Faults w) (Calls w) (m_Type w) (m_EndedCommandListID w)
    (m_CurrentInstance w) (m_InstancesPerQuery w) (m_LastUsedCommandListID w)
    (QueryHeap w) (ResultBuffer w) (ResultBufferOffset w) (Dest w).

Definition set_CompletedFenceValue (v : Z) (w : World) : World :=
  mkWorld (CommandListID w) (HasCommands w) v (CommandList w) (Submitted w)
    (GpuTicks w) (Faults w) (Calls w) (m_Type w) (m_EndedCommandListID w)
    (m_CurrentInstance w) (m_InstancesPerQuery w) (m_LastUsedCommandListID w)
    (QueryHeap w) (ResultBuffer w) (ResultBufferOffset w) (Dest w).

Definition set_CommandList (v : list GpuCmd) (w : World) : World :=
  mkWorld (CommandListID w) (HasCommands w) (CompletedFenceValue w) v (Submitted w)
    (GpuTicks w) (Faults w) (Calls w) (m_Type w) (m_EndedCommandListID w)
    (m_CurrentInstance w) (m_InstancesPerQuery w) (m_LastUsedCommandListID w)
    (QueryHeap w) (ResultBuffer w) (ResultBufferOffset w) (Dest w).

Definition set_Submitted (v : list (Z * list GpuCmd)) (w : World) : World :=
  mkWorld (CommandListID w) (HasCommands w) (CompletedFenceValue w) (CommandList w) v
    (GpuTicks w) (Faults w) (Calls w) (m_Type w) (m_EndedCommandListID w)
    (m_CurrentInstance w) (m_InstancesPerQuery w) (m_LastUsedCommandListID w)
    (QueryHeap w) (ResultBuffer w) (ResultBufferOffset w) (Dest w).

Definition set_GpuTicks (v : list Z) (w : World) : World :=
  mkWorld (CommandListID w) (HasCommands w) (CompletedFenceValue w) (CommandList w)
    (Submitted w) v (Faults w) (Calls w) (m_Type w) (m_EndedCommandListID w)
    (m_CurrentInstance w) (m_InstancesPerQuery w) (m_LastUsedCommandListID w)
    (QueryHeap w) (ResultBuffer w) (ResultBufferOffset w) (Dest w).

Definition set_Faults (v : list (option exn)) (w : World) : World :=
  mkWorld (CommandListID w) (HasCommands w) (CompletedFenceValue w) (CommandList w)
    (Submitted w) (GpuTicks w) v (Calls w) (m_Type w) (m_EndedCommandListID w)
    (m_CurrentInstance w) (m_InstancesPerQuery w) (m_LastUsedCommandListID w)
    (QueryHeap w) (ResultBuffer w) (ResultBufferOffset w) (Dest w).

Definition set_Calls (v : list Call) (w : World) : World :=
  mkWorld (CommandListID w) (HasCommands w) (CompletedFenceValue w) (CommandList w)
    (Submitted w) (GpuTicks w) (Faults w) v (m_Type w) (m_EndedCommandListID w)
    (m_CurrentInstance w) (m_InstancesPerQuery w) (m_LastUsedCommandListID w)
    (QueryHeap w) (ResultBuffer w) (ResultBufferOffset w) (Dest w).

Definition set_m_EndedCommandListID (v : Z) (w : World) : World :=
  mkWorld (CommandListID w) (HasCommands w) (CompletedFenceValue w) (CommandList w)
    (Submitted w) (GpuTicks w) (Faults w) (Calls w) (m_Type w) v
    (m_CurrentInstance w) (m_InstancesPerQuery w) (m_LastUsedCommandListID w)
    (QueryHeap w) (ResultBuffer w) (ResultBufferOffset w) (Dest w).

Definition set_m_CurrentInstance (v : Z) (w : World) : World :=
  mkWorld (CommandListID w) (HasCommands w) (CompletedFenceValue w) (CommandList w)
    (Submitted w) (GpuTicks w) (Faults w) (Calls w) (m_Type w) (m_EndedCommandListID w)
    v (m_InstancesPerQuery w) (m_LastUsedCommandListID w)
    (QueryHeap w) (ResultBuffer w) (ResultBufferOffset w) (Dest w).

Definition set_m_LastUsedCommandListID (v : Z) (w : World) : World :=
  mkWorld (CommandListID w) (HasCommands w) (CompletedFenceValue w) (CommandList w)
    (Submitted w) (GpuTicks w) (Faults w) (Calls w) (m_Type w) (m_EndedCommandListID w)
    (m_CurrentInstance w) (m_InstancesPerQuery w) v
    (QueryHeap w) (ResultBuffer w) (ResultBufferOffset w) (Dest w).

Definition set_QueryHeap (v : list Z) (w : World) : World :=
  mkWorld (CommandListID w) (HasCommands w) (CompletedFenceValue w) (CommandList w)
    (Submitted w) (GpuTicks w) (Faults w) (Calls w) (m_Type w) (m_EndedCommandListID w)
    (m_CurrentInstance w) (m_InstancesPerQuery w) (m_LastUsedCommandListID w)
    v (ResultBuffer w) (ResultBufferOffset w) (Dest w).

Definition set_ResultBuffer (v : list Z) (w : World) : World :=
  mkWorld (CommandListID w) (HasCommands w) (CompletedFenceValue w) (CommandList w)
    (Submitted w) (GpuTicks w) (Faults w) (Calls w) (m_Type w) (m_EndedCommandListID w)
    (m_CurrentInstance w) (m_InstancesPerQuery w) (m_LastUsedCommandListID w)
    (QueryHeap w) v (ResultBufferOffset w) (Dest w).

Definition set_Dest (v : list Z) (w : World) : World :=
  mkWorld (CommandListID w) (HasCommands w) (CompletedFenceValue w) (CommandList w)
    (Submitted w) (GpuTicks w) (Faults w) (Calls w) (m_Type w) (m_EndedCommandListID w)
    (m_CurrentInstance w) (m_InstancesPerQuery w) (m_LastUsedCommandListID w)
    (QueryHeap w) (ResultBuffer w) (ResultBufferOffset w) v.

(** ** The monad: state plus the ways a call can fail *)

Inductive outcome (A : Type) : Type :=
| Ok (a : A) (w : World)
| Abort (x : abort) (w : World).
Arguments Ok {A} a w.
Arguments Abort {A} x w.

Definition M (A : Type) : Type := World -> outcome A.

Definition ret {A} (a : A) : M A := fun w => Ok a w.

Definition bind {A B} (m : M A) (k : A -> M B) : M B :=
  fun w => match m w with
           | Ok a w' => k a w'
           | Abort x w' => Abort x w'
           end.

Notation "'let*' x ':=' m 'in' k" := (bind m (fun x => k))
  (at level 10, x name, m at level 100, k at level 200, only parsing).
Notation "m >> k" := (bind m (fun _ => k))
  (at level 100, k at level 200, right associativity, only parsing).

Definition get {A} (f : World -> A) : M A := fun w => Ok (f w) w.
Definition modify (f : World -> World) : M unit := fun w => Ok tt (f w).
Definition raise {A} (x : abort) : M A := fun w => Abort x w.
Definition throw {A} (e : exn) : M A := raise (Thrown e).

(** The world a call leaves behind, however it ended. *)
Definition world_of {A} (o : outcome A) : World :=
  match o with Ok _ w => w | Abort _ w => w end.

(** [assert(cond)] as in a build with assertions on; the line is the one in
    Query.cpp. *)
Definition assert_ (line : nat) (cond : bool) : M unit :=
  if cond then ret tt else raise (AssertFailed line).

(** A function declared [noexcept]: an exception that would leave it ends the
    program instead. *)
Definition noexcept {A} (m : M A) : M A :=
  fun w => match m w with
           | Abort (Thrown e) w' => Abort (Terminated e) w'
           | o => o
           end.

(** [try { m } catch (_com_error&) { h } catch (std::bad_alloc&) { h }] *)
Definition try_catch {A} (m : M A) (h : exn -> M A) : M A :=
  fun w => match m w with
           | Abort (Thrown e) w' => h e w'
           | o => o
           end.

(** [ThrowFailure(hr)]: throws [_com_error(hr)] when [hr] is a failure code. *)
Definition ThrowFailure (hr : HRESULT) : M unit :=
  if FAILED hr then throw (_com_error hr) else ret tt.

Definition when_ (b : bool) (m : M unit) : M unit := if b then m else ret tt.

(** A counted loop whose body may leave the buffers it works on. *)
Fixpoint for_ {S : Type} (xs : list Z) (body : Z -> S -> option S) (s : S) : option S :=
  match xs with
  | [] => Some s
  | x :: xs' => match body x s with
                | Some s' => for_ xs' body s'
                | None => None
                end
  end.

Definition or_undefined {A} (o : option A) : M A :=
  match o with Some a => ret a | None => raise Undefined end.

Fixpoint forM_ (xs : list Z) (body : Z -> M unit) : M unit :=
  match xs with
  | [] => ret tt
  | x :: xs' => body x >> forM_ xs' body
  end.

(** ** Caller memory: 64-bit little-endian loads and stores *)

Fixpoint le_encode (n : nat) (v : Z) : list Z :=
  match n with
  | O => []
  | S n' => v mod 256 :: le_encode n' (v / 256)
  end.

Fixpoint le_decode (bs : list Z) : Z :=
  match bs with
  | [] => 0
  | b :: bs' => b + 256 * le_decode bs'
  end.

Definition load64 (mem : list Z) : option Z :=
  if (8 <=? length mem)%nat then Some (le_decode (take 8 mem)) else None.

Definition store64 (v : Z) (mem : list Z) : option (list Z) :=
  if (8 <=? length mem)%nat then Some (le_encode 8 v ++ drop 8 mem) else None.

(** Reading and writing a [UINT64] through a [void] pointer cast to [UINT64]. *)
Definition load_UINT64 (p : pvoid) : M Z :=
  match p with
  | nullptr => raise Undefined
  | pDest => let* mem := get Dest in or_undefined (load64 mem)
  end.

Definition store_UINT64 (p : pvoid) (v : Z) : M unit :=
  match p with
  | nullptr => raise Undefined
  | pDest => let* mem := get Dest in
             let* mem' := or_undefined (store64 v mem) in
             modify (set_Dest mem')
  end.

Definition is_nullptr (p : pvoid) : bool :=
  match p with nullptr => true | pDest => false end.

(** ** The owning context and the GPU *)

(** Every call that changes the context's bookkeeping is appended to [Calls]. *)
Definition log (c : Call) : M unit :=
  modify (fun w => set_Calls (Calls w ++ [c]) w).

(** The next fallible device call takes its outcome from [Faults]; an
    exhausted list means success. *)
Definition next_fault : M (option exn) :=
  fun w => match Faults w with
           | [] => Ok None w
           | f :: fs => Ok f (set_Faults fs w)
           end.

(** The [HRESULT] a device call returns for the outcome [f]. *)
Definition fault_hr (f : option exn) : HRESULT :=
  match f with
  | None => S_OK
  | Some (_com_error hr) => hr
  | Some bad_alloc => E_OUTOFMEMORY
  end.

(** Modelled from the spec: [GetCommandListID] and [GetCompletedFenceValue] of
    ImmediateContext, which is not part of Query.cpp; section 6 gives
    currentEpoch() and completedEpoch() as non-blocking reads of the submission
    and completion counters. *)
Definition GetCommandListID : M Z := get CommandListID.
Definition GetCompletedFenceValue : M Z := get CompletedFenceValue.

(** Modelled from the spec: [GetCommandListIDWithCommands] of ImmediateContext,
    not part of Query.cpp.  Section 4.1 reads it as the current epoch; by its
    name it is the newest command list that has commands, which is the list
    being built once commands were recorded into it and the one before it
    otherwise.  Query.cpp calls it right after [Suspend] has recorded commands,
    where the two readings agree. *)
Definition GetCommandListIDWithCommands : M Z :=
  get (fun w => CommandListID w - (if HasCommands w then 0 else 1)).

(** Modelled from the spec: [AdditionalCommandsAdded] of ImmediateContext
    (section 6, notifyCommandsRecorded): the context learns that the list being
    built has commands. *)
Definition AdditionalCommandsAdded : M unit :=
  log CallAdditionalCommandsAdded >>
  modify (set_HasCommands true).

(** [GetGraphicsCommandList()->...]: the command goes to the end of the list
    being built. *)
Definition record (c : GpuCmd) : M unit :=
  modify (fun w => set_CommandList (CommandList w ++ [c]) w).

(** The list being built becomes a submitted batch and a new epoch starts.
    Section 3 of the spec has the epoch as a non-decreasing integer, so it is
    not wrapped. *)
Definition close_command_list (w : World) : World :=
  set_CommandListID (CommandListID w + 1)
    (set_HasCommands false
       (set_CommandList []
          (set_Submitted (Submitted w ++ [(CommandListID w, CommandList w)]) w))).

(** Modelled from the spec: [SubmitCommandList] of ImmediateContext (section 6,
    submitPendingWork): submits the current batch and may fail with an
    allocation or a device failure, in which case nothing was submitted. *)
Definition SubmitCommandList : M unit :=
  log CallSubmitCommandList >>
  let* f := next_fault in
  match f with
  | Some e => throw e
  | None => modify close_command_list
  end.

(** What the GPU reads and writes: the raw counter values still to come, the
    slot array and the storage region. *)
Record GpuState : Type := mkGpu {
  gpu_ticks : list Z;
  gpu_heap : list Z;
  gpu_buffer : list Z
}.

(** Modelled from the spec: what the GPU does with a command (section 4.2,
    Suspend): "end measurement" stores the next raw counter value in the slot,
    "resolve" copies slots into the storage region at the given byte address;
    [Offset] is where the region starts.  Indices are unsigned. *)
Definition gpu_exec (Offset : Z) (g : GpuState) (c : GpuCmd) : GpuState :=
  match c with
  | EndQuery _ Index =>
      mkGpu (tail (gpu_ticks g))
        (<[Z.to_nat Index := hd 0 (gpu_ticks g)]> (gpu_heap g))
        (gpu_buffer g)
  | ResolveQueryData _ StartIndex NumQueries Address =>
      mkGpu (gpu_ticks g) (gpu_heap g)
        (foldl (fun buf k =>
                  match gpu_heap g !! Z.to_nat (StartIndex + k) with
                  | Some v => <[Z.to_nat ((Address - Offset) / sizeof_UINT64 + k) := v]> buf
                  | None => buf
                  end) (gpu_buffer g) (seqZ 0 NumQueries))
  end.

(** The GPU's part of the world, read and written back. *)
Definition gpu_of (w : World) : GpuState :=
  mkGpu (GpuTicks w) (QueryHeap w) (ResultBuffer w).

Definition set_gpu (g : GpuState) (w : World) : World :=
  set_GpuTicks (gpu_ticks g) (set_QueryHeap (gpu_heap g) (set_ResultBuffer (gpu_buffer g) w)).

(** The GPU runs a batch, command by command. *)
Definition gpu_run (cmds : list GpuCmd) (w : World) : World :=
  set_gpu (foldl (gpu_exec (ResultBufferOffset w)) (gpu_of w) cmds) w.

(** The GPU finishes its oldest batch; a step of the environment, not a call
    of Query.cpp. *)
Definition GpuRetire (w : World) : World :=
  match Submitted w with
  | [] => w
  | (epoch, cmds) :: rest =>
      set_CompletedFenceValue (Z.max (CompletedFenceValue w) epoch)
        (set_Submitted rest (gpu_run cmds w))
  end.

(** The GPU finishes every submitted batch: all lists before the one being
    built are done. *)
Definition retire_all (w : World) : World :=
  set_CompletedFenceValue (CommandListID w - 1)
    (set_Submitted [] (gpu_run (concat (map snd (Submitted w))) w)).

(** Modelled from the spec: [WaitForCompletion] of ImmediateContext (section 6,
    waitForAllWorkComplete).  The call site in [AdvanceInstance] says "Wait for
    the GPU to finish all outstanding work": the list being built is submitted
    when it has commands, and the call returns when every batch has run. *)
Definition WaitForCompletion : M unit :=
  log CallWaitForCompletion >>
  let* has := get HasCommands in
  when_ has (modify close_command_list) >>
  modify retire_all.

(** Modelled from the spec: [ID3D12Device::CreateQueryHeap] (section 4.2,
    Initialize: the slot array sized for instanceCapacity slots). *)
Definition CreateQueryHeap (HeapType Count : Z) : M HRESULT :=
  let* f := next_fault in
  let hr := fault_hr f in
  when_ (negb (FAILED hr)) (modify (set_QueryHeap (replicate (Z.to_nat Count) 0))) >>
  ret hr.

(** Modelled from the spec: [AcquireSuballocatedHeap] of ImmediateContext
    (section 6, allocateReadbackRegion(size)); throws on failure. *)
Definition AcquireSuballocatedHeap (BufferSize : Z) : M unit :=
  let* f := next_fault in
  match f with
  | Some e => throw e
  | None =>
      modify (set_ResultBuffer (replicate (Z.to_nat (BufferSize / sizeof_UINT64)) 0))
  end.

(** Modelled from the spec: [Map] and [Unmap] of the readback region (section 3:
    mapped only transiently).  The mapped pointer is the region itself. *)
Definition Map (Begin End_ : Z) : M HRESULT :=
  log (CallMap Begin End_) >>
  let* f := next_fault in
  ret (fault_hr f).

Definition Unmap (Begin End_ : Z) : M unit :=
  log (CallUnmap Begin End_).

(** ** Query and Async *)

(** [UINT Query::GetDataSize12() const] *)
Definition GetDataSize12 : Z := sizeof_UINT64.

(** [UINT Query::QueryIndex(UINT Instance)] *)
Definition QueryIndex (Instance : Z) : Z := Instance.

(** [D3D12_QUERY_TYPE Query::GetType12() const] *)
Definition GetType12 : M Z :=
  let* ty := get m_Type in
  match ty with
  | e_QUERY_TIMESTAMP => ret D3D12_QUERY_TYPE_TIMESTAMP
  | _ => assert_ 88 false >> ret (-1)
  end.

(** [D3D12_QUERY_HEAP_TYPE Query::GetHeapType12() const] *)
Definition GetHeapType12 : M Z :=
  let* ty := get m_Type in
  match ty with
  | e_QUERY_TIMESTAMP => ret D3D12_QUERY_HEAP_TYPE_TIMESTAMP
  | _ => assert_ 101 false >> ret (-1)
  end.

(** [void Query::Initialize() noexcept(false)] *)
Definition Initialize : M unit :=
  let* HeapType := GetHeapType12 in
  let* cap := get m_InstancesPerQuery in
  let Count := wrap32 (1 * cap) in
  let BufferSize := wrap32 (GetDataSize12 * Count) in
  let* hr := CreateQueryHeap HeapType Count in
  ThrowFailure hr >>
  AcquireSuballocatedHeap BufferSize >>
  modify (set_m_CurrentInstance 0).

(** [void Query::Suspend() noexcept] *)
Definition Suspend : M unit :=
  noexcept (
    let* cur := get m_CurrentInstance in
    let* cap := get m_InstancesPerQuery in
    assert_ 141 (cur <? cap) >>
    let DataSize12 := GetDataSize12 in
    let NumSubQueries := 1 in
    let* QueryType12 := GetType12 in
    forM_ (seqZ 0 NumSubQueries) (fun subQuery =>
      let* Index := get (fun w => QueryIndex (m_CurrentInstance w)) in
      record (EndQuery (QueryType12 + subQuery) Index) >>
      let* Offset := get ResultBufferOffset in
      record (ResolveQueryData (QueryType12 + subQuery) Index 1
                (wrap64 (wrap32 (Index * DataSize12) + Offset)))) >>
    AdditionalCommandsAdded >>
    let* id := GetCommandListID in
    modify (set_m_LastUsedCommandListID id)).

(** [void Query::EndInternal() noexcept] *)
Definition EndInternal : M unit :=
  noexcept (
    modify (set_m_CurrentInstance 0) >>
    let* cur := get m_CurrentInstance in
    let* cap := get m_InstancesPerQuery in
    assert_ 178 (cur <? cap) >>
    Suspend >>
    modify (fun w => set_m_CurrentInstance (wrap32 (m_CurrentInstance w + 1)) w) >>
    let* cur' := get m_CurrentInstance in
    assert_ 185 (cur' <=? cap)).

(** The three nested loops of [GetDataInternal]: every counter of every
    subquery of every instance below [cur] is added into [TempBuffer], with
    [pSrc] walking the mapped region word by word. *)
Definition accumulate (pMappedData : list Z) (cur NumSubQueries NumCounters : Z)
    (TempBuffer : list Z) : option (list Z * Z) :=
  for_ (seqZ 0 cur) (fun Instance =>
    for_ (seqZ 0 NumSubQueries) (fun SubQuery =>
      for_ (seqZ 0 NumCounters) (fun Counter '(Temp, pSrc) =>
        match Temp !! Z.to_nat Counter, pMappedData !! Z.to_nat pSrc with
        | Some t, Some v => Some (<[Z.to_nat Counter := wrap64 (t + v)]> Temp, pSrc + 1)
        | _, _ => None
        end)))
    (TempBuffer, 0).

(** [void Query::GetDataInternal(void* pData, UINT DataSize) noexcept] *)
Definition GetDataInternal (pData : pvoid) (DataSize : Z) : M unit :=
  noexcept (
    let* cur := get m_CurrentInstance in
    let* cap := get m_InstancesPerQuery in
    assert_ 191 (cur <=? cap) >>
    let* ty := get m_Type in
    when_ (EQueryType_eqb ty e_QUERY_TIMESTAMP) (
      when_ (DataSize <? sizeof_UINT64) (ThrowFailure E_INVALIDARG) >>
      store_UINT64 pData 0) >>
    let* hr := Map 0 DataSize in
    ThrowFailure hr >>
    let* pMappedData := get ResultBuffer in
    let DataSize12 := GetDataSize12 in
    let NumSubQueries := 1 in
    assert_ 219 (DataSize12 mod sizeof_UINT64 =? 0) >>
    let NumCounters := DataSize12 / sizeof_UINT64 in
    let TempBuffer := replicate 12 0 in
    assert_ 227 (12 * sizeof_UINT64 >=? DataSize12) >>
    assert_ 228 (12 >=? NumCounters) >>
    let* acc := or_undefined (accumulate pMappedData cur NumSubQueries NumCounters TempBuffer) in
    let* Timestamp := or_undefined (fst acc !! 0%nat) in
    let* old := load_UINT64 pData in
    when_ (Timestamp >? old) (store_UINT64 pData Timestamp) >>
    Unmap 0 0).

(** The fold of [AdvanceInstance]: instances [1..cur] are added counter by
    counter into instance 0 of the mapped region. *)
Definition fold_instances (pMappedData : list Z) (cur NumCountersPerInstance : Z)
    : option (list Z) :=
  for_ (seqZ 1 cur) (fun Instance =>
    for_ (seqZ 0 NumCountersPerInstance) (fun i buf =>
      match buf !! Z.to_nat i,
            buf !! Z.to_nat (wrap32 (NumCountersPerInstance * Instance) + i) with
      | Some a, Some b => Some (<[Z.to_nat i := wrap64 (a + b)]> buf)
      | _, _ => None
      end))
    pMappedData.

(** [void Query::AdvanceInstance()] *)
Definition AdvanceInstance : M unit :=
  let* cur := get m_CurrentInstance in
  let* cap := get m_InstancesPerQuery in
  assert_ 267 (cur <? cap) >>
  (if wrap32 (cur + 1) <? cap then
     modify (set_m_CurrentInstance (wrap32 (cur + 1)))
   else
     WaitForCompletion >>
     let DataSize12 := GetDataSize12 in
     let NumSubQueries := 1 in
     let* hr := Map 0 (wrap32 (wrap32 (DataSize12 * NumSubQueries) * cap)) in
     ThrowFailure hr >>
     let* pMappedData := get ResultBuffer in
     assert_ 288 (DataSize12 mod sizeof_UINT64 =? 0) >>
     let NumCountersPerSubQuery := DataSize12 / sizeof_UINT64 in
     let NumCountersPerInstance := wrap32 (NumCountersPerSubQuery * NumSubQueries) in
     let* folded := or_undefined (fold_instances pMappedData cur NumCountersPerInstance) in
     modify (set_ResultBuffer folded) >>
     Unmap 0 (wrap32 (DataSize12 * NumSubQueries)) >>
     modify (set_m_CurrentInstance 1)) >>
  let* cur' := get m_CurrentInstance in
  assert_ 311 (cur' <? cap).

(** [void Async::End() noexcept] *)
Definition End : M unit :=
  noexcept (
    EndInternal >>
    let* id := GetCommandListIDWithCommands in
    modify (set_m_EndedCommandListID id)).

(** [bool Async::FlushAndPrep(bool DoNotFlush) noexcept] *)
Definition FlushAndPrep (DoNotFlush : bool) : M bool :=
  noexcept (
    let check_fence : M bool :=
      let* LastCompletedFence := GetCompletedFenceValue in
      let* ended := get m_EndedCommandListID in
      if LastCompletedFence <? ended then ret false else ret true in
    let* ended := get m_EndedCommandListID in
    let* id := GetCommandListID in
    if ended =? id then
      if DoNotFlush then ret false
      else
        let* submitted := try_catch (SubmitCommandList >> ret true)
                       (fun e => match e with
                                 | _com_error _ => ret false
                                 | bad_alloc => ret false
                                 end) in
        if submitted then check_fence else ret false
    else check_fence).

(** [bool Async::GetData(void* pData, UINT DataSize, bool DoNotFlush, bool AsyncGetData) noexcept] *)
Definition GetData (pData : pvoid) (DataSize : Z) (DoNotFlush AsyncGetData : bool) : M bool :=
  noexcept (
    let* not_ready := (if negb AsyncGetData
                       then let* ready := FlushAndPrep DoNotFlush in ret (negb ready)
                       else ret false) in
    if not_ready then ret false
    else
      when_ (negb (is_nullptr pData) && negb (DataSize =? 0))
        (GetDataInternal pData DataSize) >>
      ret true).

(** ** ImmediateContext entry points *)

(** [void ImmediateContext::QueryEnd(Async* pAsync)] *)
Definition QueryEnd : M unit := End.

(** [bool ImmediateContext::QueryGetData(Async*, void*, UINT, bool, bool)] *)
Definition QueryGetData (pData : pvoid) (DataSize : Z) (DoNotFlush AsyncGetData : bool)
    : M bool :=
  GetData pData DataSize DoNotFlush AsyncGetData.

(** * Vocabulary of the properties *)

(** ** Worlds *)

(** A world for examples: a query of kind [ty] with [cap] instances, as the
    constructors leave it ([m_EndedCommandListID] is 0, Query.cpp line 15), on a
    context building command list 1, with no pending work and no faults. *)
Definition fresh_world (ty : EQueryType) (cap : Z) (ticks : list Z) (dest : list Z)
    : World :=
  mkWorld 1 false 0 [] [] ticks [] [] ty 0 0 cap 0 [] [] 0 dest.

(** ** Frames and closed forms of the calls *)

(** Running commands changes the slot array, the storage region and the list
    of raw values still to come, and nothing else; the two memories keep their
    sizes. *)
Record gpu_only (w w' : World) : Prop := {
  go_CommandListID : CommandListID w' = CommandListID w;
  go_HasCommands : HasCommands w' = HasCommands w;
  go_CompletedFenceValue : CompletedFenceValue w' = CompletedFenceValue w;
  go_CommandList : CommandList w' = CommandList w;
  go_Submitted : Submitted w' = Submitted w;
  go_Faults : Faults w' = Faults w;
  go_Calls : Calls w' = Calls w;
  go_Type : m_Type w' = m_Type w;
  go_Ended : m_EndedCommandListID w' = m_EndedCommandListID w;
  go_CurrentInstance : m_CurrentInstance w' = m_CurrentInstance w;
  go_InstancesPerQuery : m_InstancesPerQuery w' = m_InstancesPerQuery w;
  go_LastUsed : m_LastUsedCommandListID w' = m_LastUsedCommandListID w;
  go_Offset : ResultBufferOffset w' = ResultBufferOffset w;
  go_Dest : Dest w' = Dest w;
  go_heap_length : length (QueryHeap w') = length (QueryHeap w);
  go_buffer_length : length (ResultBuffer w') = length (ResultBuffer w)
}.

(** The world after a [Suspend] that recorded instance [m_CurrentInstance]. *)
Definition suspended (w : World) : World :=
  let Index := m_CurrentInstance w in
  set_m_LastUsedCommandListID (CommandListID w)
    (set_HasCommands true
       (set_Calls (Calls w ++ [CallAdditionalCommandsAdded])
          (set_CommandList
             ((CommandList w ++ [EndQuery D3D12_QUERY_TYPE_TIMESTAMP Index])
                ++ [ResolveQueryData D3D12_QUERY_TYPE_TIMESTAMP Index 1
                      (wrap64 (wrap32 (Index * GetDataSize12) + ResultBufferOffset w))])
             w))).

(** The world after [EndInternal]. *)
Definition ended_internal (w : World) : World :=
  set_m_CurrentInstance (wrap32 (0 + 1)) (suspended (set_m_CurrentInstance 0 w)).

(** The part of [GetData] after the readiness gate. *)
Definition extract_and_report (pData : pvoid) (DataSize : Z) : M bool :=
  when_ (negb (is_nullptr pData) && negb (DataSize =? 0))
    (GetDataInternal pData DataSize) >>
  ret true.

(** ** Epochs *)

(** What else may happen on the context between two calls of the query:
    somebody records a command, the list being built is submitted, the GPU
    finishes a batch, or somebody waits for the GPU. *)
Inductive context_step : World -> World -> Prop :=
| step_record (c : GpuCmd) (w : World) :
    context_step w (set_HasCommands true (set_CommandList (CommandList w ++ [c]) w))
| step_submit (w : World) :
    context_step w (close_command_list w)
| step_retire (w : World) :
    context_step w (GpuRetire w)
| step_wait (w : World) :
    context_step w (world_of (WaitForCompletion w)).

(** The ended list is the one being built, with commands, or an earlier one. *)
Definition issued (w : World) : Prop :=
  m_EndedCommandListID w <= CommandListID w
  /\ (m_EndedCommandListID w = CommandListID w -> HasCommands w = true).

(** The ended list was submitted and the GPU has finished it. *)
Definition finished (w : World) : Prop :=
  m_EndedCommandListID w < CommandListID w
  /\ m_EndedCommandListID w <= CompletedFenceValue w.

(** ** Counters *)

(** The sum of a list of counter values, not wrapped. *)
Definition sumZ (l : list Z) : Z := foldr Z.add 0 l.

(** [a += b] on [UINT64]. *)
Definition add64 (a b : Z) : Z := wrap64 (a + b).

(** A value a [UINT64] can hold. *)
Definition is_UINT64 (z : Z) : Prop := 0 <= z < 2 ^ 64.

(** The next fallible device call succeeds. *)
Definition device_ok (w : World) : Prop := hd None (Faults w) = None.

(** The value [GetDataInternal] accumulates: the wrap-around sum of the words
    of the instances below [m_CurrentInstance]. *)
Definition accumulated (w : World) : Z :=
  wrap64 (sumZ (take (Z.to_nat (m_CurrentInstance w)) (ResultBuffer w))).

(** ** Measurements and recordings *)

(** One completed measurement: [End], then the GPU finishes all work. *)
Definition completed_measurement : M unit := End >> WaitForCompletion.

(** A timestamp query with four instances on a GPU whose next two raw values
    are 1000 and 800, after one and after two completed measurements. *)
Definition after_first_measurement : World :=
  world_of ((Initialize >> completed_measurement)
              (fresh_world e_QUERY_TIMESTAMP 4 [1000; 800] (le_encode 8 0))).

Definition after_second_measurement : World :=
  world_of (completed_measurement after_first_measurement).

(** The world once [WaitForCompletion] has returned. *)
Definition waited (w : World) : World := world_of (WaitForCompletion w).

(** The world the capacity-exhausted branch leaves behind. *)
Definition fold_world (w : World) : World :=
  let ww := waited w in
  let mapped :=
    set_Faults (tail (Faults ww))
      (set_Calls (Calls ww ++ [CallMap 0 (wrap32 (wrap32 (GetDataSize12 * 1)
                                                   * m_InstancesPerQuery w))]) ww) in
  set_m_CurrentInstance 1
    (set_Calls (Calls mapped ++ [CallUnmap 0 (wrap32 (GetDataSize12 * 1))])
       (set_ResultBuffer
          (match ResultBuffer ww with
           | [] => []
           | b0 :: rest => foldl add64 b0 (take (Z.to_nat (m_CurrentInstance w)) rest) :: rest
           end) mapped)).

(** Recording one instance and moving to the next: [Suspend], then
    [AdvanceInstance], as on a suspend before a resume. *)
Definition record_instance : M unit := Suspend >> AdvanceInstance.

(** [m], [n] times in a row. *)
Fixpoint repeatM (n : nat) (m : M unit) : M unit :=
  match n with
  | O => ret tt
  | S n' => m >> repeatM n' m
  end.

(** A timestamp query with four instances whose first four instances were
    recorded with raw values 10, 20, 30 and 40, the last [AdvanceInstance]
    still to come. *)
Definition four_recorded (more_ticks : list Z) : World :=
  world_of ((Initialize >> repeatM 3 record_instance >> Suspend)
              (fresh_world e_QUERY_TIMESTAMP 4 ([10; 20; 30; 40] ++ more_ticks)
                 (le_encode 8 0))).

(** ** Sequences of calls *)

(** The calls that read or move [m_CurrentInstance]. *)
Inductive QueryOp : Type :=
| OpInitialize
| OpEndInternal
| OpSuspend
| OpAdvanceInstance.

Definition run_op (op : QueryOp) : M unit :=
  match op with
  | OpInitialize => Initialize
  | OpEndInternal => EndInternal
  | OpSuspend => Suspend
  | OpAdvanceInstance => AdvanceInstance
  end.

(** The calls of [ops] one after the other; the first that does not return
    ends the run. *)
Fixpoint run_ops (ops : list QueryOp) : M unit :=
  match ops with
  | [] => ret tt
  | op :: ops' => run_op op >> run_ops ops'
  end.

(** [assert(m_CurrentInstance < m_InstancesPerQuery)] *)
Definition instance_in_range (w : World) : Prop :=
  m_CurrentInstance w < m_InstancesPerQuery w.

(** A timestamp query with at least [n] instances. *)
Definition timestamp_with_capacity (n : Z) (w : World) : Prop :=
  m_Type w = e_QUERY_TIMESTAMP /\ n <= m_InstancesPerQuery w.

(** A call that, if it returns, establishes [P], and that fails no assertion. *)
Definition safe {A} (P : World -> Prop) (o : outcome A) : Prop :=
  match o with
  | Ok _ w' => P w'
  | Abort (AssertFailed _) _ => False
  | Abort _ _ => True
  end.

(** The invariant of a timestamp query with two or more instances. *)
Definition in_range_2 (w : World) : Prop :=
  timestamp_with_capacity 2 w /\ instance_in_range w.

(** ** Recording past the capacity *)

(** The GPU state once the commands of the list being built have run. *)
Definition pending (w : World) : GpuState :=
  foldl (gpu_exec (ResultBufferOffset w)) (gpu_of w) (CommandList w).

(** The state of a recording: [done] are the raw values recorded so far and
    [todo] the ones the GPU will produce next.  Once the pending commands have
    run, the instances below [m_CurrentInstance] add up to the sum of [done]. *)
Record recording (done todo : list Z) (w : World) : Prop := {
  rec_Type : m_Type w = e_QUERY_TIMESTAMP;
  rec_capacity : 2 <= m_InstancesPerQuery w < 2 ^ 29;
  rec_current : 0 <= m_CurrentInstance w < m_InstancesPerQuery w;
  rec_Faults : Faults w = [];
  rec_Submitted : Submitted w = [];
  rec_flushable : CommandList w = [] \/ HasCommands w = true;
  rec_Offset : 0 <= ResultBufferOffset w < 2 ^ 63;
  rec_heap : length (QueryHeap w) = Z.to_nat (m_InstancesPerQuery w);
  rec_buffer : length (ResultBuffer w) = Z.to_nat (m_InstancesPerQuery w);
  rec_ticks : gpu_ticks (pending w) = todo;
  rec_total :
    wrap64 (sumZ (take (Z.to_nat (m_CurrentInstance w)) (gpu_buffer (pending w))))
    = wrap64 (sumZ done)
}.

(** The world after a successful [Initialize]. *)
Definition initialized (w : World) : World :=
  let Count := wrap32 (1 * m_InstancesPerQuery w) in
  set_m_CurrentInstance 0
    (set_ResultBuffer
       (replicate (Z.to_nat (wrap32 (GetDataSize12 * Count) / sizeof_UINT64)) 0)
       (set_QueryHeap (replicate (Z.to_nat Count) 0) w)).

(** What recording leaves alone for the caller: the destination buffer and the
    ended epoch; the epoch of the context can only grow. *)
Definition caller_frame (w w' : World) : Prop :=
  Dest w' = Dest w
  /\ m_EndedCommandListID w' = m_EndedCommandListID w
  /\ CommandListID w <= CommandListID w'.

(** The whole protocol: initialize, record [n] instances, wait for the GPU and
    read the result into the caller's buffer with [GetData]. *)
Definition record_and_read (n : nat) (DataSize : Z) (DoNotFlush AsyncGetData : bool)
    : M bool :=
  Initialize >> repeatM n record_instance >> WaitForCompletion >>
  GetData pDest DataSize DoNotFlush AsyncGetData.

(** * The rest of Query.cpp and its vocabulary *)

Definition set_m_Type (v : EQueryType) (w : World) : World :=
  mkWorld (CommandListID w) (HasCommands w) (CompletedFenceValue w) (CommandList w)
    (Submitted w) (GpuTicks w) (Faults w) (Calls w) v (m_EndedCommandListID w)
    (m_CurrentInstance w) (m_InstancesPerQuery w) (m_LastUsedCommandListID w)
    (QueryHeap w) (ResultBuffer w) (ResultBufferOffset w) (Dest w).

(** [Async::Async(ImmediateContext* pDevice, EQueryType Type) noexcept]: the
    member initializers [m_Type(Type)] and [m_EndedCommandListID(0)]. *)
Definition Async_ctor (Type_ : EQueryType) : M unit :=
  modify (set_m_Type Type_) >>
  modify (set_m_EndedCommandListID 0).

(** The world after a [SubmitCommandList] that succeeded. *)
Definition flushed (w : World) : World :=
  close_command_list
    (set_Faults (tail (Faults w)) (set_Calls (Calls w ++ [CallSubmitCommandList]) w)).

(** The answer of the fence comparison that ends [FlushAndPrep]. *)
Definition fence_reached (w : World) : bool :=
  negb (CompletedFenceValue w <? m_EndedCommandListID w).

(** What [GetDataInternal] leaves behind for a timestamp query whose mapping
    succeeds. *)
Definition read_world (DataSize : Z) (w : World) : World :=
  set_Calls ((Calls w ++ [CallMap 0 DataSize]) ++ [CallUnmap 0 0])
    (set_Faults (tail (Faults w))
       (set_Dest (le_encode 8 (accumulated w) ++ drop 8 (Dest w)) w)).

(** The number of 64-bit words [Initialize] asks for: [GetDataSize12() * Count]
    in [UINT] arithmetic, in words. *)
Definition region_words (cap : Z) : Z :=
  wrap32 (GetDataSize12 * wrap32 (1 * cap)) / sizeof_UINT64.

(** Record [n] instances, then end the measurement and read it once the GPU
    has finished. *)
Definition record_end_and_read (n : nat) (DataSize : Z) (DoNotFlush AsyncGetData : bool)
    : M bool :=
  Initialize >> repeatM n record_instance >> End >> WaitForCompletion >>
  GetData pDest DataSize DoNotFlush AsyncGetData.

(** * Properties *)

Arguments wrap32 : simpl never.
Arguments wrap64 : simpl never.

(** Unfolds the monad down to matches on outcomes. *)
Ltac unmonad :=
  unfold bind, ret, get, modify, raise, throw, assert_, when_, noexcept,
    try_catch, or_undefined, log in *.

(** ** The invalid-argument check of [GetDataInternal] *)

(** C5: on a timestamp (8-byte counter) query, [GetDataInternal] with a
    destination size below 8 bytes raises [_com_error(E_INVALIDARG)] before it
    touches anything: the world, and with it the destination buffer, is left as
    it was.  Because the function is [noexcept] the exception ends the program
    at its boundary: the invalid-argument failure is raised but never reaches
    a caller. *)
Theorem GetDataInternal_small_size_invalid_arg (w : World) (pData : pvoid) (DataSize : Z) :
  m_Type w = e_QUERY_TIMESTAMP ->
  m_CurrentInstance w <= m_InstancesPerQuery w ->
  DataSize < sizeof_UINT64 ->
  GetDataInternal pData DataSize w = Abort (Terminated (_com_error E_INVALIDARG)) w
  /\ Dest (world_of (GetDataInternal pData DataSize w)) = Dest w.
Proof.
  intros Hty Hcur Hsize.
  assert (E : GetDataInternal pData DataSize w
              = Abort (Terminated (_com_error E_INVALIDARG)) w).
  { unfold GetDataInternal. unmonad. cbn.
    rewrite (proj2 (Z.leb_le _ _) Hcur). cbn. rewrite Hty. cbn.
    rewrite (proj2 (Z.ltb_lt _ _) Hsize). reflexivity. }
  rewrite E. split; reflexivity.
Qed.

Lemma GetDataInternal_small_size_witness :
  let w := fresh_world e_QUERY_TIMESTAMP 4 [] [1; 2; 3; 4] in
  GetDataInternal pDest 4 w = Abort (Terminated (_com_error E_INVALIDARG)) w
  /\ Dest (world_of (GetDataInternal pDest 4 w)) = [1; 2; 3; 4].
Proof.
  intros w.
  apply (GetDataInternal_small_size_invalid_arg w pDest 4);
    [reflexivity | vm_compute; discriminate | reflexivity].
Defined.

(** ** The readiness gate *)

(** C3: when the ended command list is still the one being built, or the
    completed fence is behind it, [GetData] with [DoNotFlush] set and
    [AsyncGetData] clear returns [false] and leaves the whole world as it was:
    nothing is written to the destination and no call (no submission, no wait)
    reaches the context. *)
Theorem GetData_DoNotFlush_not_ready (w : World) (pData : pvoid) (DataSize : Z) :
  m_EndedCommandListID w = CommandListID w
  \/ CompletedFenceValue w < m_EndedCommandListID w ->
  GetData pData DataSize true false w = Ok false w.
Proof.
  intros H. unfold GetData, FlushAndPrep, GetCommandListID, GetCompletedFenceValue.
  unmonad. cbn.
  destruct (Z.eqb_spec (m_EndedCommandListID w) (CommandListID w)) as [E|E].
  - reflexivity.
  - destruct H as [H|H]; [contradiction|].
    destruct (Z.ltb_spec (CompletedFenceValue w) (m_EndedCommandListID w)); [|lia].
    reflexivity.
Qed.

Lemma GetData_DoNotFlush_not_ready_witness :
  let w := world_of (End (world_of (Initialize (fresh_world e_QUERY_TIMESTAMP 4 [7] [9; 9; 9; 9; 9; 9; 9; 9])))) in
  m_EndedCommandListID w = CommandListID w /\ GetData pDest 8 true false w = Ok false w.
Proof.
  intros w. split; [reflexivity|].
  apply (GetData_DoNotFlush_not_ready w pDest 8). left. reflexivity.
Defined.

(** [FlushAndPrep] always returns: no exception, assertion or termination. *)
Lemma FlushAndPrep_returns (w : World) (DoNotFlush : bool) :
  exists b w', FlushAndPrep DoNotFlush w = Ok b w'.
Proof.
  unfold FlushAndPrep, GetCommandListID, GetCompletedFenceValue, SubmitCommandList,
    next_fault.
  unmonad. cbn.
  destruct (m_EndedCommandListID w =? CommandListID w).
  - destruct DoNotFlush; [eauto|].
    destruct (Faults w) as [|[e|] fs]; cbn.
    + destruct (_ <? _); eauto.
    + destruct e; cbn; eauto.
    + destruct (_ <? _); eauto.
  - destruct (_ <? _); eauto.
Qed.

(** C4: [FlushAndPrep] never fails: in every world it returns a boolean; and
    when the ended list is the one being built, flushing is allowed and
    [SubmitCommandList] throws ([_com_error] or [bad_alloc]), it returns [false]
    with nothing submitted. *)
Theorem FlushAndPrep_submit_failure_not_ready (w : World) (e : exn) (fs : list (option exn)) :
  m_EndedCommandListID w = CommandListID w ->
  Faults w = Some e :: fs ->
  FlushAndPrep false w
  = Ok false (set_Faults fs (set_Calls (Calls w ++ [CallSubmitCommandList]) w))
  /\ forall (w0 : World) (DoNotFlush : bool),
       exists b w', FlushAndPrep DoNotFlush w0 = Ok b w'.
Proof.
  intros Hend Hf. split; [|apply FlushAndPrep_returns].
  unfold FlushAndPrep, GetCommandListID, GetCompletedFenceValue, SubmitCommandList,
    next_fault.
  unmonad. cbn. rewrite Hend, Z.eqb_refl, Hf. cbn.
  destruct e; reflexivity.
Qed.

Lemma FlushAndPrep_submit_failure_witness :
  let w := set_Faults [Some bad_alloc]
             (world_of (End (world_of (Initialize (fresh_world e_QUERY_TIMESTAMP 4 [7] []))))) in
  FlushAndPrep false w
  = Ok false (set_Faults [] (set_Calls (Calls w ++ [CallSubmitCommandList]) w)).
Proof.
  intros w.
  apply (FlushAndPrep_submit_failure_not_ready w bad_alloc []); reflexivity.
Defined.

(** ** What GPU execution leaves alone *)

Lemma gpu_exec_lengths (Offset : Z) (g : GpuState) (c : GpuCmd) :
  length (gpu_heap (gpu_exec Offset g c)) = length (gpu_heap g)
  /\ length (gpu_buffer (gpu_exec Offset g c)) = length (gpu_buffer g).
Proof.
  destruct c as [ty idx | ty start num addr]; cbn.
  - split; [apply length_insert | reflexivity].
  - split; [reflexivity|].
    generalize (gpu_buffer g) as buf. generalize (seqZ 0 num) as ks.
    induction ks as [|k ks IH]; intros buf; cbn; [reflexivity|].
    rewrite IH. destruct (gpu_heap g !! Z.to_nat (start + k)); [apply length_insert | reflexivity].
Qed.

Lemma gpu_run_lengths (Offset : Z) (cmds : list GpuCmd) (g : GpuState) :
  length (gpu_heap (foldl (gpu_exec Offset) g cmds)) = length (gpu_heap g)
  /\ length (gpu_buffer (foldl (gpu_exec Offset) g cmds)) = length (gpu_buffer g).
Proof.
  revert g. induction cmds as [|c cmds IH]; intros g; cbn; [split; reflexivity|].
  destruct (IH (gpu_exec Offset g c)) as [-> ->]. apply gpu_exec_lengths.
Qed.

Lemma gpu_run_gpu_only (cmds : list GpuCmd) (w : World) : gpu_only w (gpu_run cmds w).
Proof.
  unfold gpu_run. constructor; cbn; try reflexivity; apply gpu_run_lengths.
Qed.

Lemma gpu_run_CommandListID (cmds : list GpuCmd) (w : World) :
  CommandListID (gpu_run cmds w) = CommandListID w.
Proof. apply gpu_run_gpu_only. Qed.

Lemma gpu_run_HasCommands (cmds : list GpuCmd) (w : World) :
  HasCommands (gpu_run cmds w) = HasCommands w.
Proof. apply gpu_run_gpu_only. Qed.

Lemma gpu_run_CompletedFenceValue (cmds : list GpuCmd) (w : World) :
  CompletedFenceValue (gpu_run cmds w) = CompletedFenceValue w.
Proof. apply gpu_run_gpu_only. Qed.

Lemma gpu_run_CommandList (cmds : list GpuCmd) (w : World) :
  CommandList (gpu_run cmds w) = CommandList w.
Proof. apply gpu_run_gpu_only. Qed.

Lemma gpu_run_Submitted (cmds : list GpuCmd) (w : World) :
  Submitted (gpu_run cmds w) = Submitted w.
Proof. apply gpu_run_gpu_only. Qed.

Lemma gpu_run_Faults (cmds : list GpuCmd) (w : World) :
  Faults (gpu_run cmds w) = Faults w.
Proof. apply gpu_run_gpu_only. Qed.

Lemma gpu_run_Calls (cmds : list GpuCmd) (w : World) :
  Calls (gpu_run cmds w) = Calls w.
Proof. apply gpu_run_gpu_only. Qed.

Lemma gpu_run_m_Type (cmds : list GpuCmd) (w : World) :
  m_Type (gpu_run cmds w) = m_Type w.
Proof. apply gpu_run_gpu_only. Qed.

Lemma gpu_run_m_EndedCommandListID (cmds : list GpuCmd) (w : World) :
  m_EndedCommandListID (gpu_run cmds w) = m_EndedCommandListID w.
Proof. apply gpu_run_gpu_only. Qed.

Lemma gpu_run_m_CurrentInstance (cmds : list GpuCmd) (w : World) :
  m_CurrentInstance (gpu_run cmds w) = m_CurrentInstance w.
Proof. apply gpu_run_gpu_only. Qed.

Lemma gpu_run_m_InstancesPerQuery (cmds : list GpuCmd) (w : World) :
  m_InstancesPerQuery (gpu_run cmds w) = m_InstancesPerQuery w.
Proof. apply gpu_run_gpu_only. Qed.

Lemma gpu_run_m_LastUsedCommandListID (cmds : list GpuCmd) (w : World) :
  m_LastUsedCommandListID (gpu_run cmds w) = m_LastUsedCommandListID w.
Proof. apply gpu_run_gpu_only. Qed.

Lemma gpu_run_ResultBufferOffset (cmds : list GpuCmd) (w : World) :
  ResultBufferOffset (gpu_run cmds w) = ResultBufferOffset w.
Proof. apply gpu_run_gpu_only. Qed.

Lemma gpu_run_Dest (cmds : list GpuCmd) (w : World) :
  Dest (gpu_run cmds w) = Dest w.
Proof. apply gpu_run_gpu_only. Qed.

Lemma gpu_run_heap_length (cmds : list GpuCmd) (w : World) :
  length (QueryHeap (gpu_run cmds w)) = length (QueryHeap w).
Proof. apply gpu_run_gpu_only. Qed.

Lemma gpu_run_buffer_length (cmds : list GpuCmd) (w : World) :
  length (ResultBuffer (gpu_run cmds w)) = length (ResultBuffer w).
Proof. apply gpu_run_gpu_only. Qed.

Create Rewrite HintDb gpu_frame.
#[global] Hint Rewrite
  gpu_run_CommandListID gpu_run_HasCommands gpu_run_CompletedFenceValue
  gpu_run_CommandList gpu_run_Submitted gpu_run_Faults
  gpu_run_Calls gpu_run_m_Type gpu_run_m_EndedCommandListID
  gpu_run_m_CurrentInstance gpu_run_m_InstancesPerQuery gpu_run_m_LastUsedCommandListID
  gpu_run_ResultBufferOffset gpu_run_Dest gpu_run_heap_length
  gpu_run_buffer_length
  : gpu_frame.

(** ** [noexcept] *)

Lemma noexcept_then_ret {A B} (m : M A) (b : B) (w : World) :
  noexcept (noexcept m >> ret b) w = (noexcept m >> ret b) w.
Proof. unfold noexcept, bind, ret. destruct (m w) as [a w'|[] w']; reflexivity. Qed.

Lemma bind_ok {A B} (m : M A) (k : A -> M B) (w w' : World) (a : A) :
  m w = Ok a w' -> bind m k w = k a w'.
Proof. intros H. unfold bind. rewrite H. reflexivity. Qed.

Lemma noexcept_bind_ok {A B} (m : M A) (k : A -> M B) (w w' : World) (a : A) :
  m w = Ok a w' -> noexcept (bind m k) w = noexcept (k a) w'.
Proof. intros H. unfold noexcept, bind. rewrite H. reflexivity. Qed.

(** ** [Suspend], [EndInternal] and [End] on a timestamp query *)

Arguments gpu_run : simpl never.
Arguments Suspend : simpl never.
Arguments EndInternal : simpl never.
Arguments AdvanceInstance : simpl never.
Arguments GetDataInternal : simpl never.
Arguments FlushAndPrep : simpl never.
Arguments WaitForCompletion : simpl never.
Arguments Initialize : simpl never.

Lemma Suspend_ok (w : World) :
  m_Type w = e_QUERY_TIMESTAMP ->
  m_CurrentInstance w < m_InstancesPerQuery w ->
  Suspend w = Ok tt (suspended w).
Proof.
  intros Hty Hcur. unfold Suspend, GetType12, AdditionalCommandsAdded, GetCommandListID,
    record. unmonad. cbn.
  rewrite (proj2 (Z.ltb_lt _ _) Hcur). cbn. rewrite Hty. cbn.
  reflexivity.
Qed.

Lemma EndInternal_ok (w : World) :
  m_Type w = e_QUERY_TIMESTAMP ->
  0 < m_InstancesPerQuery w ->
  EndInternal w = Ok tt (ended_internal w).
Proof.
  intros Hty Hcap. unfold EndInternal. unmonad. cbn.
  rewrite (proj2 (Z.ltb_lt _ _) Hcap). cbn.
  rewrite Suspend_ok by (cbn; assumption). cbn.
  change (wrap32 (0 + 1)) with 1.
  rewrite (proj2 (Z.leb_le 1 _)) by lia. reflexivity.
Qed.

Lemma End_ok (w : World) :
  m_Type w = e_QUERY_TIMESTAMP ->
  0 < m_InstancesPerQuery w ->
  End w = Ok tt (set_m_EndedCommandListID (CommandListID w) (ended_internal w)).
Proof.
  intros Hty Hcap. unfold End, GetCommandListIDWithCommands. unmonad.
  rewrite EndInternal_ok by assumption. cbn.
  rewrite Z.sub_0_r. reflexivity.
Qed.

(** C9: on a timestamp query with at least one instance, [End] runs
    [EndInternal] and then stores in [m_EndedCommandListID] the epoch of the
    command list being built.  That list is not submitted by [End] (the epoch
    and the submitted batches are as before, the commands of [EndInternal] sit
    in the list being built), the completed fence does not move, and the only
    call that reaches the context is [AdditionalCommandsAdded]: no wait. *)
Theorem End_records_current_epoch (w : World) :
  m_Type w = e_QUERY_TIMESTAMP ->
  0 < m_InstancesPerQuery w ->
  exists w1,
    EndInternal w = Ok tt w1
    /\ End w = Ok tt (set_m_EndedCommandListID (CommandListID w1) w1)
    /\ m_EndedCommandListID (world_of (End w)) = CommandListID (world_of (End w))
    /\ CommandListID (world_of (End w)) = CommandListID w
    /\ Submitted (world_of (End w)) = Submitted w
    /\ CompletedFenceValue (world_of (End w)) = CompletedFenceValue w
    /\ Calls (world_of (End w)) = Calls w ++ [CallAdditionalCommandsAdded].
Proof.
  intros Hty Hcap. exists (ended_internal w).
  rewrite End_ok, EndInternal_ok by assumption.
  repeat split; reflexivity.
Qed.

Lemma End_records_current_epoch_witness :
  let w := world_of (Initialize (fresh_world e_QUERY_TIMESTAMP 4 [7] [])) in
  exists w1,
    EndInternal w = Ok tt w1
    /\ End w = Ok tt (set_m_EndedCommandListID (CommandListID w1) w1)
    /\ m_EndedCommandListID (world_of (End w)) = CommandListID (world_of (End w))
    /\ CommandListID (world_of (End w)) = CommandListID w
    /\ Submitted (world_of (End w)) = Submitted w
    /\ CompletedFenceValue (world_of (End w)) = CompletedFenceValue w
    /\ Calls (world_of (End w)) = Calls w ++ [CallAdditionalCommandsAdded].
Proof.
  intros w. apply (End_records_current_epoch w); [reflexivity | vm_compute; reflexivity].
Defined.

(** ** [GetData] *)

Lemma extract_and_report_noexcept (pData : pvoid) (DataSize : Z) (w : World) :
  noexcept (extract_and_report pData DataSize) w = extract_and_report pData DataSize w.
Proof.
  unfold extract_and_report, when_.
  destruct (negb (is_nullptr pData) && negb (DataSize =? 0)).
  - unfold GetDataInternal. apply noexcept_then_ret.
  - reflexivity.
Qed.

Lemma GetData_async (w : World) (pData : pvoid) (DataSize : Z) (DoNotFlush : bool) :
  GetData pData DataSize DoNotFlush true w = extract_and_report pData DataSize w.
Proof.
  unfold GetData. cbn [negb]. rewrite <- extract_and_report_noexcept. reflexivity.
Qed.

(** C10: with [AsyncGetData] set, [GetData] is exactly the extraction step
    followed by [return true], in every world and for either value of
    [DoNotFlush]: [FlushAndPrep] is not consulted, so neither the ended epoch
    nor the completed fence matters.  Hence it returns [true] with nothing
    touched when the buffer is null or the size is 0, and otherwise calls
    [GetDataInternal] and returns [true] when that call returns. *)
Theorem GetData_async_skips_gate (w : World) (pData : pvoid) (DataSize : Z) (DoNotFlush : bool) :
  GetData pData DataSize DoNotFlush true w = extract_and_report pData DataSize w
  /\ (is_nullptr pData = true \/ DataSize = 0 ->
      GetData pData DataSize DoNotFlush true w = Ok true w)
  /\ (is_nullptr pData = false -> DataSize <> 0 ->
      forall w', GetDataInternal pData DataSize w = Ok tt w' ->
                 GetData pData DataSize DoNotFlush true w = Ok true w').
Proof.
  rewrite GetData_async. split; [reflexivity|]. split.
  - intros [Hp|Hs]; unfold extract_and_report, when_, bind, ret.
    + rewrite Hp. reflexivity.
    + rewrite Hs, andb_false_r. reflexivity.
  - intros Hp Hs w' Hok. unfold extract_and_report, when_, bind, ret.
    rewrite Hp. destruct (Z.eqb_spec DataSize 0); [contradiction|]. cbn.
    rewrite Hok. reflexivity.
Qed.

Lemma GetData_async_skips_gate_witness :
  let w := world_of (End (world_of (Initialize (fresh_world e_QUERY_TIMESTAMP 4 [7] (le_encode 8 9))))) in
  m_EndedCommandListID w = CommandListID w
  /\ GetData nullptr 0 true true w = Ok true w
  /\ GetData pDest 8 true true w = Ok true (world_of (GetDataInternal pDest 8 w)).
Proof.
  intros w. split; [reflexivity|]. split.
  - apply (proj1 (proj2 (GetData_async_skips_gate w nullptr 0 true))).
    left. reflexivity.
  - apply (proj2 (proj2 (GetData_async_skips_gate w pDest 8 true)));
      [reflexivity | discriminate | vm_compute; reflexivity].
Defined.

(** ** Readiness after a wait *)

Lemma End_issued (w w1 : World) : End w = Ok tt w1 -> issued w1.
Proof.
  intros H.
  destruct (m_Type w) eqn:Hty.
  - destruct (Z.ltb_spec 0 (m_InstancesPerQuery w)) as [Hcap|Hcap].
    + rewrite End_ok in H by assumption. injection H as <-.
      split; cbn; [lia | reflexivity].
    + exfalso. revert H. unfold End, EndInternal. unmonad. cbn.
      rewrite (proj2 (Z.ltb_ge _ _) Hcap). cbn. discriminate.
  - exfalso. revert H. unfold End, EndInternal, Suspend, GetType12. unmonad. cbn.
    destruct (0 <? m_InstancesPerQuery w) eqn:Hcap; cbn; [|discriminate].
    rewrite Hcap. cbn. rewrite Hty. cbn. discriminate.
Qed.

Lemma WaitForCompletion_world (w : World) :
  WaitForCompletion w
  = Ok tt (retire_all
             ((if HasCommands w then close_command_list else fun w' => w')
                (set_Calls (Calls w ++ [CallWaitForCompletion]) w))).
Proof.
  unfold WaitForCompletion. unmonad. cbn. destruct (HasCommands w); reflexivity.
Qed.

Lemma WaitForCompletion_finishes (w : World) :
  issued w -> finished (world_of (WaitForCompletion w)).
Proof.
  intros [Hle Heq]. rewrite WaitForCompletion_world. cbn [world_of].
  unfold retire_all, finished.
  destruct (HasCommands w) eqn:Hhas; cbn; autorewrite with gpu_frame; cbn.
  - lia.
  - assert (m_EndedCommandListID w <> CommandListID w) by (intros E; apply Heq in E; discriminate).
    lia.
Qed.

Lemma context_step_issued (w w' : World) : context_step w w' -> issued w -> issued w'.
Proof.
  intros Hstep [Hle Heq]. destruct Hstep; unfold issued.
  - cbn. split; [assumption | reflexivity].
  - cbn. split; lia.
  - unfold GpuRetire. destruct (Submitted w) as [|[epoch cmds] rest]; [split; assumption|].
    cbn. autorewrite with gpu_frame. split; assumption.
  - destruct (WaitForCompletion_finishes w (conj Hle Heq)) as [Hlt _].
    split; [lia | intros E; lia].
Qed.

Lemma context_step_finished (w w' : World) : context_step w w' -> finished w -> finished w'.
Proof.
  intros Hstep [Hlt Hdone]. destruct Hstep; unfold finished.
  - cbn. split; assumption.
  - cbn. split; [lia | assumption].
  - unfold GpuRetire. destruct (Submitted w) as [|[epoch cmds] rest]; [split; assumption|].
    cbn. autorewrite with gpu_frame. split; [assumption | lia].
  - apply WaitForCompletion_finishes. split; [lia | intros E; lia].
Qed.

Lemma context_steps_issued (w w' : World) : rtc context_step w w' -> issued w -> issued w'.
Proof. induction 1; eauto using context_step_issued. Qed.

Lemma context_steps_finished (w w' : World) :
  rtc context_step w w' -> finished w -> finished w'.
Proof. induction 1; eauto using context_step_finished. Qed.

Lemma FlushAndPrep_finished (w : World) (DoNotFlush : bool) :
  finished w -> FlushAndPrep DoNotFlush w = Ok true w.
Proof.
  intros [Hlt Hdone]. unfold FlushAndPrep, GetCommandListID, GetCompletedFenceValue.
  unmonad. cbn.
  destruct (Z.eqb_spec (m_EndedCommandListID w) (CommandListID w)); [lia|].
  destruct (Z.ltb_spec (CompletedFenceValue w) (m_EndedCommandListID w)); [lia|].
  reflexivity.
Qed.

Lemma GetData_finished (w : World) (pData : pvoid) (DataSize : Z)
    (DoNotFlush AsyncGetData : bool) :
  finished w ->
  GetData pData DataSize DoNotFlush AsyncGetData w = extract_and_report pData DataSize w.
Proof.
  intros Hfin. destruct AsyncGetData.
  - apply GetData_async.
  - rewrite <- extract_and_report_noexcept. unfold GetData. cbn [negb].
    rewrite (noexcept_bind_ok _ _ w w false); [reflexivity|].
    rewrite (bind_ok _ _ w w true) by (apply FlushAndPrep_finished; assumption).
    reflexivity.
Qed.

(** C8: once [End] has returned on an operation and [WaitForCompletion] has
    returned after it, with any other activity on the context before and after
    the wait, the readiness gate answers [true] without submitting or waiting,
    and [GetData], whatever its arguments, goes on to the extraction step and
    [return true]; with no buffer it returns [true] in the same world. *)
Theorem GetData_ready_after_wait (w w1 w2 w3 w4 : World) :
  End w = Ok tt w1 ->
  rtc context_step w1 w2 ->
  WaitForCompletion w2 = Ok tt w3 ->
  rtc context_step w3 w4 ->
  (forall DoNotFlush, FlushAndPrep DoNotFlush w4 = Ok true w4)
  /\ (forall pData DataSize DoNotFlush AsyncGetData,
        GetData pData DataSize DoNotFlush AsyncGetData w4
        = extract_and_report pData DataSize w4)
  /\ (forall DoNotFlush AsyncGetData,
        GetData nullptr 0 DoNotFlush AsyncGetData w4 = Ok true w4).
Proof.
  intros Hend Hsteps1 Hwait Hsteps2.
  assert (Hfin : finished w4).
  { eapply context_steps_finished; [eassumption|].
    replace w3 with (world_of (WaitForCompletion w2)) by (rewrite Hwait; reflexivity).
    apply WaitForCompletion_finishes.
    eapply context_steps_issued; [eassumption|].
    eapply End_issued; eassumption. }
  split; [intros; apply FlushAndPrep_finished; assumption|].
  split; [intros; apply GetData_finished; assumption|].
  intros. rewrite GetData_finished by assumption. reflexivity.
Qed.

Lemma GetData_ready_after_wait_witness :
  let w := world_of (Initialize (fresh_world e_QUERY_TIMESTAMP 4 [7] (le_encode 8 9))) in
  let w1 := world_of (End w) in
  let w2 := close_command_list w1 in
  let w3 := world_of (WaitForCompletion w2) in
  let w4 := GpuRetire w3 in
  (forall DoNotFlush, FlushAndPrep DoNotFlush w4 = Ok true w4)
  /\ (forall pData DataSize DoNotFlush AsyncGetData,
        GetData pData DataSize DoNotFlush AsyncGetData w4
        = extract_and_report pData DataSize w4)
  /\ (forall DoNotFlush AsyncGetData,
        GetData nullptr 0 DoNotFlush AsyncGetData w4 = Ok true w4).
Proof.
  intros w w1 w2 w3 w4.
  apply (GetData_ready_after_wait w w1 w2 w3 w4).
  - vm_compute. reflexivity.
  - apply rtc_once, step_submit.
  - vm_compute. reflexivity.
  - apply rtc_once, step_retire.
Defined.

(** ** Sums of 64-bit counters *)

Lemma sumZ_app (l k : list Z) : sumZ (l ++ k) = sumZ l + sumZ k.
Proof. unfold sumZ. induction l as [|x l IH]; cbn; [reflexivity | rewrite IH; lia]. Qed.

Lemma wrap64_add_l (a b : Z) : wrap64 (wrap64 a + b) = wrap64 (a + b).
Proof. unfold wrap64. apply Z.add_mod_idemp_l. lia. Qed.

Lemma wrap64_range (a : Z) : is_UINT64 (wrap64 a).
Proof. unfold wrap64, is_UINT64. apply Z.mod_pos_bound. lia. Qed.

Lemma wrap64_small (a : Z) : is_UINT64 a -> wrap64 a = a.
Proof. unfold wrap64, is_UINT64. intros. apply Z.mod_small. lia. Qed.

Lemma wrap32_small (a : Z) : 0 <= a < 2 ^ 32 -> wrap32 a = a.
Proof. unfold wrap32. intros. apply Z.mod_small. lia. Qed.

Lemma foldl_add64 (b0 : Z) (l : list Z) :
  l <> [] \/ is_UINT64 b0 -> foldl add64 b0 l = wrap64 (b0 + sumZ l).
Proof.
  unfold sumZ. revert b0. induction l as [|x l IH]; intros b0 H; cbn.
  - destruct H as [H|H]; [contradiction|]. rewrite Z.add_0_r, wrap64_small; auto.
  - rewrite IH by (right; apply wrap64_range).
    unfold add64. rewrite wrap64_add_l. f_equal. lia.
Qed.

(** ** Loops *)

Lemma for_app {S : Type} (xs ys : list Z) (body : Z -> S -> option S) (s : S) :
  for_ (xs ++ ys) body s
  = match for_ xs body s with Some s' => for_ ys body s' | None => None end.
Proof.
  revert s. induction xs as [|x xs IH]; intros s; cbn; [reflexivity|].
  destruct (body x s); [apply IH | reflexivity].
Qed.

Lemma seqZ_one (m : Z) : seqZ m 1 = [m].
Proof. rewrite seqZ_cons by lia. rewrite seqZ_nil by lia. reflexivity. Qed.

Lemma seqZ_snoc (m : Z) (n : nat) :
  seqZ m (Z.of_nat (S n)) = seqZ m (Z.of_nat n) ++ [m + Z.of_nat n].
Proof.
  replace (Z.of_nat (S n)) with (Z.of_nat n + 1) by lia.
  rewrite seqZ_app by lia. rewrite seqZ_one. reflexivity.
Qed.

(** The accumulation loop of [GetDataInternal] over one 8-byte counter per
    instance leaves in [TempBuffer[0]] the wrap-around sum of the first [n]
    words of the region. *)
Lemma accumulate_sum (B : list Z) (n : nat) :
  (n <= length B)%nat ->
  accumulate B (Z.of_nat n) 1 1 (replicate 12 0)
  = Some (<[0%nat := wrap64 (sumZ (take n B))]> (replicate 12 0), Z.of_nat n).
Proof.
  unfold accumulate. induction n as [|n IH]; intros Hn.
  - reflexivity.
  - rewrite seqZ_snoc, for_app, IH by lia. cbn [for_].
    rewrite !seqZ_one. cbn [for_].
    change (Z.to_nat 0) with 0%nat. rewrite Nat2Z.id.
    rewrite list_lookup_insert_eq by (cbn; lia).
    destruct (lookup_lt_is_Some_2 B n) as [v Hv]; [lia|].
    rewrite Hv. rewrite list_insert_insert_eq.
    rewrite (take_S_r _ _ _ Hv), sumZ_app. change (sumZ [v]) with (v + 0).
    rewrite wrap64_add_l, Z.add_0_r.
    f_equal. f_equal. lia.
Qed.

(** The fold loop of [AdvanceInstance] over one 8-byte counter per instance
    adds the [n] words after the first into the first, one [UINT64] addition
    at a time. *)
Lemma fold_instances_sum (b0 : Z) (rest : list Z) (n : nat) :
  (n <= length rest)%nat ->
  Z.of_nat n < 2 ^ 32 ->
  fold_instances (b0 :: rest) (Z.of_nat n) 1 = Some (foldl add64 b0 (take n rest) :: rest).
Proof.
  unfold fold_instances. induction n as [|n IH]; intros Hn Hn32.
  - reflexivity.
  - rewrite seqZ_snoc, for_app, IH by lia. cbn [for_].
    rewrite seqZ_one. cbn [for_].
    change (Z.to_nat 0) with 0%nat.
    rewrite Z.add_0_r, Z.mul_1_l, wrap32_small by lia.
    replace (Z.to_nat (1 + Z.of_nat n)) with (S n) by lia.
    destruct (lookup_lt_is_Some_2 rest n) as [v Hv]; [lia|].
    set (h := foldl add64 b0 (take n rest)).
    change ((h :: rest) !! 0%nat) with (Some h).
    change ((h :: rest) !! S n) with (rest !! n). rewrite Hv.
    rewrite (take_S_r _ _ _ Hv), foldl_app. reflexivity.
Qed.

(** ** Caller memory *)

Lemma le_encode_length (n : nat) (v : Z) : length (le_encode n v) = n.
Proof. revert v. induction n as [|n IH]; intros v; cbn; [reflexivity | rewrite IH; reflexivity]. Qed.

Lemma le_decode_encode (n : nat) (v : Z) :
  le_decode (le_encode n v) = v mod 256 ^ Z.of_nat n.
Proof.
  revert v. induction n as [|n IH]; intros v.
  - cbn. rewrite Z.mod_1_r. reflexivity.
  - cbn [le_encode le_decode]. rewrite IH.
    rewrite Nat2Z.inj_succ, Z.pow_succ_r by lia.
    rewrite Z.rem_mul_r by lia. reflexivity.
Qed.

Lemma load64_stored (v : Z) (tl : list Z) : load64 (le_encode 8 v ++ tl) = Some (wrap64 v).
Proof.
  unfold load64. rewrite length_app, le_encode_length. cbn [Nat.leb Nat.add].
  rewrite take_app_length' by (rewrite le_encode_length; reflexivity).
  rewrite le_decode_encode. reflexivity.
Qed.

Arguments Map : simpl never.
Arguments Unmap : simpl never.
Arguments load_UINT64 : simpl never.
Arguments store_UINT64 : simpl never.
Arguments le_encode : simpl never.

Lemma store_UINT64_ok (w : World) (v : Z) :
  (8 <= length (Dest w))%nat ->
  store_UINT64 pDest v w = Ok tt (set_Dest (le_encode 8 v ++ drop 8 (Dest w)) w).
Proof.
  intros H. unfold store_UINT64, store64. unmonad. cbn -[Nat.leb].
  rewrite (proj2 (Nat.leb_le _ _) H). reflexivity.
Qed.

Lemma load_UINT64_ok (w : World) (x : Z) :
  load64 (Dest w) = Some x -> load_UINT64 pDest w = Ok x w.
Proof. intros H. unfold load_UINT64. unmonad. cbn. rewrite H. reflexivity. Qed.

Lemma Map_ok (w : World) (Begin End_ : Z) :
  device_ok w ->
  Map Begin End_ w
  = Ok S_OK (set_Faults (tail (Faults w)) (set_Calls (Calls w ++ [CallMap Begin End_]) w)).
Proof.
  unfold device_ok, Map, next_fault. unmonad. destruct w. cbn. intros H.
  destruct Faults0 as [|f fs]; cbn in *; [reflexivity | subst f; reflexivity].
Qed.

(** ** What [GetDataInternal] returns for a timestamp query *)

Lemma GetDataInternal_timestamp (w : World) (DataSize : Z) :
  m_Type w = e_QUERY_TIMESTAMP ->
  0 <= m_CurrentInstance w <= m_InstancesPerQuery w ->
  (Z.to_nat (m_CurrentInstance w) <= length (ResultBuffer w))%nat ->
  sizeof_UINT64 <= DataSize ->
  (8 <= length (Dest w))%nat ->
  device_ok w ->
  exists w',
    GetDataInternal pDest DataSize w = Ok tt w'
    /\ Dest w' = le_encode 8 (accumulated w) ++ drop 8 (Dest w)
    /\ ResultBuffer w' = ResultBuffer w
    /\ m_CurrentInstance w' = m_CurrentInstance w.
Proof.
  intros Hty [Hcur0 Hcur] Hlen Hsize Hdest Hdev.
  unfold GetDataInternal. unmonad. cbn -[replicate accumulate].
  rewrite (proj2 (Z.leb_le _ _) Hcur). cbn -[replicate accumulate].
  rewrite Hty. cbn -[replicate accumulate].
  rewrite (proj2 (Z.ltb_ge _ _) Hsize). cbn -[replicate accumulate].
  rewrite store_UINT64_ok by assumption. cbn -[replicate accumulate].
  rewrite Map_ok by exact Hdev. cbn -[replicate accumulate].
  change (GetDataSize12 `mod` sizeof_UINT64 =? 0) with true.
  change (12 * sizeof_UINT64 >=? GetDataSize12) with true.
  change (GetDataSize12 `div` sizeof_UINT64) with 1.
  change (12 >=? 1) with true. cbn -[replicate accumulate].
  pose proof (accumulate_sum (ResultBuffer w) _ Hlen) as Hacc.
  rewrite Z2Nat.id in Hacc by lia. rewrite Hacc. cbn -[replicate].
  rewrite list_lookup_insert_eq by (rewrite length_replicate; lia).
  cbn -[replicate].
  rewrite (load_UINT64_ok _ 0) by apply load64_stored.
  fold (accumulated w).
  destruct (Z.gtb_spec (accumulated w) 0) as [Hpos|Hzero].
  - rewrite store_UINT64_ok by (cbn; rewrite length_app, le_encode_length; lia).
    unfold Unmap. unmonad. cbn.
    eexists. split; [reflexivity|]. cbn.
    rewrite drop_app_length' by (rewrite le_encode_length; reflexivity).
    repeat split.
  - assert (Hz : accumulated w = 0).
    { pose proof (wrap64_range (sumZ (take (Z.to_nat (m_CurrentInstance w)) (ResultBuffer w)))) as R.
      unfold is_UINT64 in R. unfold accumulated in *. lia. }
    unfold Unmap. unmonad. cbn.
    eexists. split; [reflexivity|]. cbn. rewrite Hz. repeat split.
Qed.

(** C1, as the code has it: for a timestamp query [GetDataInternal] zeroes the
    destination before it compares, so what it stores is the wrap-around sum
    of the instances below [m_CurrentInstance] whatever the destination held
    before.  [End] restarts at instance 0, so only the latest measurement is
    counted: after a first completed measurement of 1000 [GetData] returns
    1000, and after a second one of 800 it returns 800, into a destination
    holding 0 as well as into one holding 1200. *)
Theorem GetData_timestamp_overwrites_destination :
  (forall (w : World) (DataSize : Z) (dest : list Z),
     m_Type w = e_QUERY_TIMESTAMP ->
     0 <= m_CurrentInstance w <= m_InstancesPerQuery w ->
     (Z.to_nat (m_CurrentInstance w) <= length (ResultBuffer w))%nat ->
     sizeof_UINT64 <= DataSize ->
     (8 <= length dest)%nat ->
     device_ok w ->
     exists w',
       GetDataInternal pDest DataSize (set_Dest dest w) = Ok tt w'
       /\ load64 (Dest w') = Some (accumulated w))
  /\ (exists w',
        GetData pDest 8 false false after_first_measurement = Ok true w'
        /\ load64 (Dest w') = Some 1000)
  /\ (exists w',
        GetData pDest 8 false false (set_Dest (le_encode 8 0) after_second_measurement)
        = Ok true w'
        /\ load64 (Dest w') = Some 800)
  /\ (exists w',
        GetData pDest 8 false false (set_Dest (le_encode 8 1200) after_second_measurement)
        = Ok true w'
        /\ load64 (Dest w') = Some 800).
Proof.
  split.
  - intros w DataSize dest Hty Hcur Hlen Hsize Hdest Hdev.
    destruct (GetDataInternal_timestamp (set_Dest dest w) DataSize)
      as (w' & Hrun & HD & _); try assumption.
    exists w'. split; [exact Hrun|].
    rewrite HD, load64_stored.
    change (accumulated (set_Dest dest w)) with (accumulated w).
    f_equal. apply wrap64_small, wrap64_range.
  - repeat split; eexists; split; vm_compute; reflexivity.
Qed.

Lemma GetData_timestamp_overwrites_destination_witness :
  exists w',
    GetDataInternal pDest 8 (set_Dest (le_encode 8 1200) after_second_measurement) = Ok tt w'
    /\ load64 (Dest w') = Some (accumulated after_second_measurement).
Proof.
  apply (proj1 GetData_timestamp_overwrites_destination
           after_second_measurement 8 (le_encode 8 1200)).
  - reflexivity.
  - vm_compute. split; discriminate.
  - vm_compute. lia.
  - vm_compute. discriminate.
  - vm_compute. lia.
  - reflexivity.
Defined.

(** C1 as stated fails: after completed measurements of 1000 and 800 the
    destination that held 1200 holds 800 after [GetData], not the maximum 1200,
    and a destination that held 0 receives 800, not 1000. *)
Lemma GetData_timestamp_not_max_with_destination :
  let w := set_Dest (le_encode 8 1200) after_second_measurement in
  m_Type w = e_QUERY_TIMESTAMP
  /\ load64 (Dest w) = Some 1200
  /\ accumulated w = 800
  /\ GetData pDest 8 false false w
     = Ok true (world_of (GetData pDest 8 false false w))
  /\ load64 (Dest (world_of (GetData pDest 8 false false w))) = Some 800
  /\ Some 800 <> Some (Z.max (accumulated w) 1200)
  /\ load64 (Dest (world_of (GetData pDest 8 false false
                               (set_Dest (le_encode 8 0) after_second_measurement))))
     <> Some 1000.
Proof.
  vm_compute. repeat split; try reflexivity; discriminate.
Qed.

(** ** The world after a wait *)

Lemma WaitForCompletion_ok (w : World) : WaitForCompletion w = Ok tt (waited w).
Proof. unfold waited. rewrite WaitForCompletion_world. reflexivity. Qed.

Lemma waited_eq (w : World) :
  waited w
  = retire_all ((if HasCommands w then close_command_list else fun w' => w')
                  (set_Calls (Calls w ++ [CallWaitForCompletion]) w)).
Proof. unfold waited. rewrite WaitForCompletion_world. reflexivity. Qed.

Ltac waited_field :=
  intros; rewrite waited_eq; unfold retire_all;
  match goal with |- context [HasCommands ?w] => destruct (HasCommands w) end;
  cbn; autorewrite with gpu_frame; reflexivity.

Lemma waited_Faults (w : World) : Faults (waited w) = Faults w.
Proof. waited_field. Qed.
Lemma waited_Type (w : World) : m_Type (waited w) = m_Type w.
Proof. waited_field. Qed.
Lemma waited_InstancesPerQuery (w : World) : m_InstancesPerQuery (waited w) = m_InstancesPerQuery w.
Proof. waited_field. Qed.
Lemma waited_CurrentInstance (w : World) : m_CurrentInstance (waited w) = m_CurrentInstance w.
Proof. waited_field. Qed.
Lemma waited_Offset (w : World) : ResultBufferOffset (waited w) = ResultBufferOffset w.
Proof. waited_field. Qed.
Lemma waited_Dest (w : World) : Dest (waited w) = Dest w.
Proof. waited_field. Qed.
Lemma waited_buffer_length (w : World) :
  length (ResultBuffer (waited w)) = length (ResultBuffer w).
Proof. waited_field. Qed.
Lemma waited_heap_length (w : World) :
  length (QueryHeap (waited w)) = length (QueryHeap w).
Proof. waited_field. Qed.
Lemma waited_Submitted (w : World) : Submitted (waited w) = [].
Proof. waited_field. Qed.
Lemma waited_Ended (w : World) :
  m_EndedCommandListID (waited w) = m_EndedCommandListID w.
Proof. waited_field. Qed.

Lemma waited_CommandListID (w : World) : CommandListID w <= CommandListID (waited w).
Proof.
  rewrite waited_eq. unfold retire_all.
  destruct (HasCommands w); cbn; autorewrite with gpu_frame; cbn; lia.
Qed.

Lemma waited_CompletedFenceValue (w : World) :
  CompletedFenceValue (waited w) = CommandListID (waited w) - 1.
Proof.
  rewrite waited_eq. unfold retire_all.
  destruct (HasCommands w); cbn; autorewrite with gpu_frame; reflexivity.
Qed.

Lemma waited_finished (w : World) :
  m_EndedCommandListID w < CommandListID w -> finished (waited w).
Proof.
  intros H. unfold finished.
  rewrite waited_Ended, waited_CompletedFenceValue.
  pose proof (waited_CommandListID w). lia.
Qed.

Lemma waited_CommandList (w : World) :
  HasCommands w = true \/ CommandList w = [] -> CommandList (waited w) = [].
Proof.
  intros H. rewrite waited_eq. unfold retire_all.
  destruct (HasCommands w); cbn; autorewrite with gpu_frame; cbn; [reflexivity|].
  destruct H as [H|H]; [discriminate | exact H].
Qed.

Create Rewrite HintDb waited.
#[global] Hint Rewrite
  waited_Faults waited_Type waited_InstancesPerQuery waited_CurrentInstance
  waited_Offset waited_Dest waited_buffer_length waited_heap_length waited_Submitted
  : waited.

Arguments waited : simpl never.

(** ** [AdvanceInstance] *)

Lemma AdvanceInstance_next (w : World) :
  0 <= m_CurrentInstance w ->
  m_CurrentInstance w + 1 < m_InstancesPerQuery w ->
  m_InstancesPerQuery w <= 2 ^ 32 ->
  AdvanceInstance w = Ok tt (set_m_CurrentInstance (m_CurrentInstance w + 1) w).
Proof.
  intros H0 H1 H32. unfold AdvanceInstance. unmonad. cbn.
  rewrite (proj2 (Z.ltb_lt _ _)) by lia. cbn.
  rewrite wrap32_small by lia.
  rewrite (proj2 (Z.ltb_lt _ _) H1). cbn.
  rewrite (proj2 (Z.ltb_lt _ _) H1). reflexivity.
Qed.

Lemma AdvanceInstance_fold (w : World) :
  0 <= m_CurrentInstance w ->
  m_CurrentInstance w + 1 = m_InstancesPerQuery w ->
  m_InstancesPerQuery w < 2 ^ 32 ->
  device_ok w ->
  (Z.to_nat (m_CurrentInstance w) < length (ResultBuffer w))%nat ->
  AdvanceInstance w
  = if 1 <? m_InstancesPerQuery w then Ok tt (fold_world w)
    else Abort (AssertFailed 311) (fold_world w).
Proof.
  intros H0 H1 H32 Hdev Hlen. unfold AdvanceInstance. unmonad. cbn.
  rewrite (proj2 (Z.ltb_lt _ _)) by lia. cbn.
  rewrite wrap32_small by lia.
  rewrite (proj2 (Z.ltb_ge _ _)) by lia. cbn.
  rewrite WaitForCompletion_ok. cbn.
  rewrite Map_ok by (unfold device_ok; rewrite waited_Faults; exact Hdev).
  cbn. change (GetDataSize12 `mod` sizeof_UINT64 =? 0) with true. cbn.
  change (wrap32 (GetDataSize12 `div` sizeof_UINT64 * 1)) with 1.
  pose proof (waited_buffer_length w) as HL.
  unfold fold_world.
  destruct (ResultBuffer (waited w)) as [|b0 rest] eqn:HB; cbn in HL; [lia|].
  pose proof (fold_instances_sum b0 rest (Z.to_nat (m_CurrentInstance w))) as HF.
  rewrite Z2Nat.id in HF by lia. rewrite HF by lia. cbn.
  unfold Unmap. unmonad. cbn.
  destruct (1 <? m_InstancesPerQuery w); reflexivity.
Qed.

(** C6: on the capacity-exhausted branch ([m_CurrentInstance + 1] equal to
    [m_InstancesPerQuery]) with a successful mapping, [AdvanceInstance] waits
    for the GPU and then leaves in instance 0 the 64-bit sum of what
    instances 0 to [m_CurrentInstance] held after the wait, leaves the other
    instances as they were, and sets [m_CurrentInstance] to 1, not 0: what
    [GetDataInternal] would now accumulate is that sum, and the next [Suspend]
    records into slot 1 on top of it.  With two or more instances the call
    returns normally. *)
Theorem AdvanceInstance_folds_into_instance0 (w : World) :
  0 <= m_CurrentInstance w ->
  m_CurrentInstance w + 1 = m_InstancesPerQuery w ->
  m_InstancesPerQuery w < 2 ^ 32 ->
  device_ok w ->
  (Z.to_nat (m_CurrentInstance w) < length (ResultBuffer w))%nat ->
  Forall is_UINT64 (ResultBuffer (waited w)) ->
  let before := ResultBuffer (waited w) in
  let total := wrap64 (sumZ (take (Z.to_nat (m_CurrentInstance w) + 1) before)) in
  let w' := world_of (AdvanceInstance w) in
  ResultBuffer w' = <[0%nat := total]> before
  /\ m_CurrentInstance w' = 1
  /\ accumulated w' = total
  /\ QueryIndex (m_CurrentInstance w') = 1
  /\ (2 <= m_InstancesPerQuery w -> AdvanceInstance w = Ok tt w').
Proof.
  intros H0 H1 H32 Hdev Hlen Hvalid before total w'.
  assert (Hw' : w' = fold_world w).
  { unfold w'. rewrite AdvanceInstance_fold by assumption.
    destruct (1 <? m_InstancesPerQuery w); reflexivity. }
  assert (HB : ResultBuffer (fold_world w) = <[0%nat := total]> before).
  { unfold fold_world, total, before. cbn.
    pose proof (waited_buffer_length w) as HL.
    destruct (ResultBuffer (waited w)) as [|b0 rest] eqn:HB; cbn in HL; [lia|].
    cbn. f_equal. rewrite foldl_add64.
    - rewrite Nat.add_1_r. reflexivity.
    - right. inversion Hvalid; assumption. }
  rewrite Hw'. split; [exact HB|]. split; [reflexivity|]. split; [|split].
  - unfold accumulated. rewrite HB. cbn.
    pose proof (waited_buffer_length w) as HL. fold before in HL.
    destruct before as [|b0 rest]; cbn in HL; [lia|]. cbn.
    change (Z.to_nat 1) with 1%nat. unfold sumZ. cbn. rewrite Z.add_0_r.
    apply wrap64_small, wrap64_range.
  - reflexivity.
  - intros Hcap. rewrite AdvanceInstance_fold by assumption.
    rewrite (proj2 (Z.ltb_lt 1 _)) by lia. reflexivity.
Qed.

Lemma AdvanceInstance_folds_into_instance0_witness :
  let w := four_recorded [] in
  let before := ResultBuffer (waited w) in
  let total := wrap64 (sumZ (take (Z.to_nat (m_CurrentInstance w) + 1) before)) in
  let w' := world_of (AdvanceInstance w) in
  before = [10; 20; 30; 40]
  /\ total = 100
  /\ ResultBuffer w' = <[0%nat := total]> before
  /\ m_CurrentInstance w' = 1
  /\ accumulated w' = total
  /\ QueryIndex (m_CurrentInstance w') = 1
  /\ (2 <= m_InstancesPerQuery w -> AdvanceInstance w = Ok tt w').
Proof.
  intros w before total w'.
  assert (E : before = [10; 20; 30; 40]) by (vm_compute; reflexivity).
  split; [exact E|]. split; [vm_compute; reflexivity|].
  apply (AdvanceInstance_folds_into_instance0 w).
  - vm_compute. discriminate.
  - vm_compute. reflexivity.
  - vm_compute. reflexivity.
  - reflexivity.
  - vm_compute. lia.
  - fold before. rewrite E. repeat constructor; unfold is_UINT64; lia.
Defined.

(** ** The instance counter stays below the capacity *)

Lemma Initialize_safe (w : World) :
  timestamp_with_capacity 2 w -> safe in_range_2 (Initialize w).
Proof.
  intros [Hty Hcap].
  unfold Initialize, GetHeapType12, CreateQueryHeap, AcquireSuballocatedHeap,
    ThrowFailure, next_fault.
  unmonad. destruct w; cbn in *. subst m_Type0. cbn.
  assert (Hgood : forall w', m_Type w' = e_QUERY_TIMESTAMP ->
                             m_InstancesPerQuery w' = m_InstancesPerQuery0 ->
                             m_CurrentInstance w' = 0 -> in_range_2 w').
  { intros w' H1 H2 H3. unfold in_range_2, timestamp_with_capacity, instance_in_range.
    rewrite H1, H2, H3. repeat split; lia. }
  destruct Faults0 as [|f fs]; cbn.
  - apply Hgood; reflexivity.
  - destruct (FAILED (fault_hr f)) eqn:HF; cbn; rewrite ?HF; cbn; [trivial|].
    destruct fs as [|[e|] fs']; cbn; [| trivial |]; apply Hgood; reflexivity.
Qed.

Lemma Suspend_safe (w : World) : in_range_2 w -> safe in_range_2 (Suspend w).
Proof.
  intros [[Hty Hcap] Hcur]. rewrite Suspend_ok by assumption.
  repeat split; assumption.
Qed.

Lemma EndInternal_safe (w : World) : in_range_2 w -> safe in_range_2 (EndInternal w).
Proof.
  intros [[Hty Hcap] Hcur]. rewrite EndInternal_ok by (assumption || lia).
  unfold in_range_2, timestamp_with_capacity, instance_in_range. cbn.
  change (wrap32 (0 + 1)) with 1. repeat split; (assumption || lia).
Qed.

Lemma AdvanceInstance_safe (w : World) : in_range_2 w -> safe in_range_2 (AdvanceInstance w).
Proof.
  intros [[Hty Hcap] Hcur].
  assert (Hgood : forall w' c, m_Type w' = m_Type w ->
                               m_InstancesPerQuery w' = m_InstancesPerQuery w ->
                               m_CurrentInstance w' = c ->
                               c < m_InstancesPerQuery w -> in_range_2 w').
  { intros w' c H1 H2 H3 H4. unfold in_range_2, timestamp_with_capacity, instance_in_range.
    rewrite H1, H2, H3. repeat split; (assumption || lia). }
  unfold AdvanceInstance. unmonad. cbn.
  rewrite (proj2 (Z.ltb_lt _ _) Hcur). cbn.
  destruct (wrap32 (m_CurrentInstance w + 1) <? m_InstancesPerQuery w) eqn:Hnext; cbn.
  - rewrite Hnext. cbn. eapply Hgood; try reflexivity. apply Z.ltb_lt. exact Hnext.
  - rewrite WaitForCompletion_ok. cbn.
    unfold Map, next_fault, ThrowFailure, Unmap. unmonad. cbn.
    change (GetDataSize12 `mod` sizeof_UINT64 =? 0) with true.
    destruct (Faults (waited w)) as [|f fs]; cbn;
      [|destruct (FAILED (fault_hr f)); cbn; [trivial|]];
      (destruct (fold_instances _ _ _); cbn; [|trivial]);
      rewrite (proj2 (Z.ltb_lt 1 _)) by lia; cbn;
      (eapply Hgood; cbn; [apply waited_Type | apply waited_InstancesPerQuery
                          | reflexivity | lia]).
Qed.

Lemma run_op_safe (op : QueryOp) (w : World) : in_range_2 w -> safe in_range_2 (run_op op w).
Proof.
  intros H. destruct op; cbn [run_op].
  - apply Initialize_safe, H.
  - apply EndInternal_safe, H.
  - apply Suspend_safe, H.
  - apply AdvanceInstance_safe, H.
Qed.

Lemma safe_bind {A B} (P Q : World -> Prop) (m : M A) (k : A -> M B) (w : World) :
  safe P (m w) -> (forall a w', P w' -> safe Q (k a w')) -> safe Q (bind m k w).
Proof.
  unfold bind. destruct (m w) as [a w'|x w']; cbn; intros H Hk; [apply Hk, H | exact H].
Qed.

Lemma run_ops_safe (ops : list QueryOp) (w : World) :
  in_range_2 w -> safe in_range_2 (run_ops ops w).
Proof.
  revert w. induction ops as [|op ops IH]; intros w H; cbn [run_ops].
  - exact H.
  - eapply safe_bind; [apply run_op_safe, H | intros _ w' H'; apply IH, H'].
Qed.

(** C7, for two or more instances: on a timestamp query with
    [m_InstancesPerQuery >= 2], after [Initialize] and any further sequence of
    [Initialize], [EndInternal], [Suspend] and [AdvanceInstance] calls that
    returns, [m_CurrentInstance < m_InstancesPerQuery] holds, so it holds
    before whatever [Suspend] comes next; and no assertion of the source fails
    along the way, neither the one [Suspend] opens with nor the two of
    [AdvanceInstance]. *)
Theorem CurrentInstance_below_capacity (w : World) (ops : list QueryOp) :
  m_Type w = e_QUERY_TIMESTAMP ->
  2 <= m_InstancesPerQuery w ->
  (forall w', run_ops (OpInitialize :: ops) w = Ok tt w' ->
              m_CurrentInstance w' < m_InstancesPerQuery w')
  /\ (forall line w', run_ops (OpInitialize :: ops) w <> Abort (AssertFailed line) w').
Proof.
  intros Hty Hcap.
  assert (Hsafe : safe in_range_2 (run_ops (OpInitialize :: ops) w)).
  { cbn [run_ops run_op]. eapply safe_bind.
    - apply Initialize_safe. split; assumption.
    - intros _ w' H'. apply run_ops_safe, H'. }
  split.
  - intros w' Hrun. rewrite Hrun in Hsafe. apply Hsafe.
  - intros line w' Hrun. rewrite Hrun in Hsafe. exact Hsafe.
Qed.

Lemma CurrentInstance_below_capacity_witness :
  let w := fresh_world e_QUERY_TIMESTAMP 2 [] [] in
  let ops := [OpSuspend; OpAdvanceInstance; OpSuspend; OpEndInternal; OpAdvanceInstance] in
  m_CurrentInstance (world_of (run_ops (OpInitialize :: ops) w)) < 2.
Proof.
  intros w ops.
  apply (proj1 (CurrentInstance_below_capacity w ops eq_refl ltac:(vm_compute; discriminate))).
  vm_compute. reflexivity.
Defined.

(** C7 as stated fails for a single instance: with [m_InstancesPerQuery = 1],
    [Initialize] then [EndInternal] return and leave [m_CurrentInstance] equal
    to the capacity, so the [Suspend] that follows starts outside the range and
    its assertion fails; and [AdvanceInstance] right after [Initialize] leaves
    [m_CurrentInstance = 1] and fails its closing assertion. *)
Lemma CurrentInstance_reaches_capacity_one :
  let w := fresh_world e_QUERY_TIMESTAMP 1 [] [] in
  1 <= m_InstancesPerQuery w
  /\ (exists w', run_ops [OpInitialize; OpEndInternal] w = Ok tt w'
                 /\ ~ m_CurrentInstance w' < m_InstancesPerQuery w'
                 /\ Suspend w' = Abort (AssertFailed 141) w')
  /\ (exists w', run_ops [OpInitialize; OpAdvanceInstance] w = Abort (AssertFailed 311) w'
                 /\ ~ m_CurrentInstance w' < m_InstancesPerQuery w').
Proof.
  cbv zeta. split; [vm_compute; discriminate|]. split.
  - eexists. split; [vm_compute; reflexivity|]. split; [vm_compute; discriminate|].
    vm_compute. reflexivity.
  - eexists. split; [vm_compute; reflexivity|]. vm_compute. discriminate.
Qed.

(** ** Recording more instances than the capacity *)

Lemma waited_gpu (w : World) :
  Submitted w = [] ->
  CommandList w = [] \/ HasCommands w = true ->
  GpuTicks (waited w) = gpu_ticks (pending w)
  /\ QueryHeap (waited w) = gpu_heap (pending w)
  /\ ResultBuffer (waited w) = gpu_buffer (pending w).
Proof.
  intros Hsub Hcl. rewrite waited_eq. unfold retire_all, gpu_run, pending.
  destruct (HasCommands w) eqn:Hhas; cbn; rewrite Hsub; cbn.
  - rewrite app_nil_r. repeat split.
  - destruct Hcl as [Hcl|Hcl]; [|discriminate]. rewrite Hcl. repeat split.
Qed.

Lemma pending_suspended (w : World) :
  pending (suspended w)
  = gpu_exec (ResultBufferOffset w)
      (gpu_exec (ResultBufferOffset w) (pending w)
         (EndQuery D3D12_QUERY_TYPE_TIMESTAMP (m_CurrentInstance w)))
      (ResolveQueryData D3D12_QUERY_TYPE_TIMESTAMP (m_CurrentInstance w) 1
         (wrap64 (wrap32 (m_CurrentInstance w * GetDataSize12) + ResultBufferOffset w))).
Proof. unfold pending, suspended. cbn. rewrite !foldl_app. reflexivity. Qed.

(** One recorded instance, as the GPU executes it: the next raw value [v]
    lands in the region at the slot of the instance. *)
Lemma gpu_records_instance (Offset cur v : Z) (todo : list Z) (g : GpuState) :
  gpu_ticks g = v :: todo ->
  0 <= Offset < 2 ^ 63 ->
  0 <= cur < 2 ^ 29 ->
  (Z.to_nat cur < length (gpu_heap g))%nat ->
  gpu_exec Offset
    (gpu_exec Offset g (EndQuery D3D12_QUERY_TYPE_TIMESTAMP cur))
    (ResolveQueryData D3D12_QUERY_TYPE_TIMESTAMP cur 1
       (wrap64 (wrap32 (cur * GetDataSize12) + Offset)))
  = mkGpu todo (<[Z.to_nat cur := v]> (gpu_heap g)) (<[Z.to_nat cur := v]> (gpu_buffer g)).
Proof.
  intros Hticks Hoff Hcur Hlen. cbn. rewrite Hticks. cbn. rewrite seqZ_one. cbn.
  rewrite Z.add_0_r, list_lookup_insert_eq by assumption.
  change GetDataSize12 with 8. change sizeof_UINT64 with 8.
  rewrite wrap32_small by lia.
  rewrite wrap64_small by (unfold is_UINT64; lia).
  replace (cur * 8 + Offset - Offset) with (cur * 8) by lia.
  rewrite Z.div_mul by lia. rewrite Z.add_0_r. reflexivity.
Qed.

Lemma sumZ_take_insert (B : list Z) (n : nat) (v : Z) :
  (n < length B)%nat ->
  sumZ (take (S n) (<[n := v]> B)) = sumZ (take n B) + v.
Proof.
  intros Hn.
  rewrite (take_S_r _ _ v) by (apply list_lookup_insert_eq; exact Hn).
  rewrite take_insert_ge by lia. rewrite sumZ_app.
  change (sumZ [v]) with (v + 0). lia.
Qed.

Lemma wrap64_add_congr (a b v : Z) : wrap64 a = wrap64 b -> wrap64 (a + v) = wrap64 (b + v).
Proof. intros H. rewrite <- (wrap64_add_l a), <- (wrap64_add_l b), H. reflexivity. Qed.

Lemma pending_lengths (w : World) :
  length (gpu_heap (pending w)) = length (QueryHeap w)
  /\ length (gpu_buffer (pending w)) = length (ResultBuffer w).
Proof. unfold pending. apply gpu_run_lengths. Qed.

(** The fields of [fold_world]. *)
Lemma fold_world_Type (w : World) : m_Type (fold_world w) = m_Type w.
Proof. unfold fold_world. cbn. apply waited_Type. Qed.

Lemma fold_world_InstancesPerQuery (w : World) :
  m_InstancesPerQuery (fold_world w) = m_InstancesPerQuery w.
Proof. unfold fold_world. cbn. apply waited_InstancesPerQuery. Qed.

Lemma fold_world_CurrentInstance (w : World) : m_CurrentInstance (fold_world w) = 1.
Proof. reflexivity. Qed.

Lemma fold_world_Faults (w : World) : Faults (fold_world w) = tail (Faults w).
Proof. unfold fold_world. cbn. rewrite waited_Faults. reflexivity. Qed.

Lemma fold_world_Submitted (w : World) : Submitted (fold_world w) = [].
Proof. unfold fold_world. cbn. apply waited_Submitted. Qed.

Lemma fold_world_CommandList (w : World) :
  CommandList (fold_world w) = CommandList (waited w).
Proof. reflexivity. Qed.

Lemma fold_world_Offset (w : World) :
  ResultBufferOffset (fold_world w) = ResultBufferOffset w.
Proof. unfold fold_world. cbn. apply waited_Offset. Qed.

Lemma fold_world_QueryHeap (w : World) : QueryHeap (fold_world w) = QueryHeap (waited w).
Proof. reflexivity. Qed.

Lemma fold_world_GpuTicks (w : World) : GpuTicks (fold_world w) = GpuTicks (waited w).
Proof. reflexivity. Qed.

Lemma fold_world_ResultBuffer (w : World) :
  ResultBuffer (fold_world w)
  = match ResultBuffer (waited w) with
    | [] => []
    | b0 :: rest => foldl add64 b0 (take (Z.to_nat (m_CurrentInstance w)) rest) :: rest
    end.
Proof. reflexivity. Qed.

Lemma fold_world_frame (w : World) : caller_frame w (fold_world w).
Proof.
  unfold caller_frame, fold_world. cbn.
  split; [apply waited_Dest|]. split; [apply waited_Ended | apply waited_CommandListID].
Qed.

Lemma pending_flushed (w : World) : CommandList w = [] -> pending w = gpu_of w.
Proof. intros H. unfold pending. rewrite H. reflexivity. Qed.

Lemma record_instance_step (done todo : list Z) (v : Z) (w : World) :
  recording done (v :: todo) w ->
  exists w', record_instance w = Ok tt w'
             /\ recording (done ++ [v]) todo w'
             /\ caller_frame w w'.
Proof.
  intros [Hty Hcap Hcur Hfaults Hsub Hflush Hoff Hheap Hbuf Hticks Htotal].
  destruct (pending_lengths w) as [Hph Hpb].
  assert (Hpend : pending (suspended w)
                  = mkGpu todo (<[Z.to_nat (m_CurrentInstance w) := v]> (gpu_heap (pending w)))
                      (<[Z.to_nat (m_CurrentInstance w) := v]> (gpu_buffer (pending w)))).
  { rewrite pending_suspended. apply gpu_records_instance; try assumption; lia. }
  assert (Hnew : wrap64 (sumZ (take (S (Z.to_nat (m_CurrentInstance w)))
                                 (<[Z.to_nat (m_CurrentInstance w) := v]>
                                    (gpu_buffer (pending w)))))
                 = wrap64 (sumZ (done ++ [v]))).
  { rewrite sumZ_take_insert by lia. rewrite sumZ_app.
    change (sumZ [v]) with (v + 0). rewrite Z.add_0_r.
    apply wrap64_add_congr, Htotal. }
  unfold record_instance.
  rewrite (bind_ok _ _ w (suspended w) tt) by (apply Suspend_ok; [assumption | lia]).
  destruct (Z.lt_ge_cases (m_CurrentInstance w + 1) (m_InstancesPerQuery w)) as [Hnext|Hlast].
  - rewrite AdvanceInstance_next by (cbn; lia).
    eexists. split; [reflexivity|].
    split; [|unfold caller_frame; cbn; repeat split; lia].
    constructor; try (cbn; first [assumption | lia]).
    + match goal with |- context [pending ?x] =>
        change (pending x) with (pending (suspended w)) end.
      rewrite Hpend. reflexivity.
    + match goal with |- context [pending ?x] =>
        change (pending x) with (pending (suspended w)) end.
      rewrite Hpend. cbn [gpu_buffer m_CurrentInstance set_m_CurrentInstance suspended].
      cbn.
      replace (Z.to_nat (m_CurrentInstance w + 1)) with (S (Z.to_nat (m_CurrentInstance w))) by lia.
      exact Hnew.
  - assert (Hlast' : m_CurrentInstance w + 1 = m_InstancesPerQuery w) by lia.
    rewrite AdvanceInstance_fold by (cbn; try assumption; try lia;
                                     unfold device_ok; cbn; rewrite Hfaults; reflexivity).
    change (m_InstancesPerQuery (suspended w)) with (m_InstancesPerQuery w).
    rewrite (proj2 (Z.ltb_lt 1 _)) by lia.
    eexists. split; [reflexivity|]. split; [|exact (fold_world_frame (suspended w))].
    destruct (waited_gpu (suspended w)) as (Wt & Wh & Wb); [assumption | right; reflexivity |].
    rewrite Hpend in Wt, Wh, Wb. cbn [gpu_ticks gpu_heap gpu_buffer] in Wt, Wh, Wb.
    assert (Hcl : CommandList (waited (suspended w)) = [])
      by (apply waited_CommandList; left; reflexivity).
    assert (Hp : pending (fold_world (suspended w)) = gpu_of (fold_world (suspended w)))
      by (apply pending_flushed; rewrite fold_world_CommandList; exact Hcl).
    assert (HRB : ResultBuffer (fold_world (suspended w))
                  = foldl add64 (hd 0 (<[Z.to_nat (m_CurrentInstance w) := v]>
                                         (gpu_buffer (pending w))))
                      (take (Z.to_nat (m_CurrentInstance w))
                         (tail (<[Z.to_nat (m_CurrentInstance w) := v]>
                                  (gpu_buffer (pending w)))))
                    :: tail (<[Z.to_nat (m_CurrentInstance w) := v]> (gpu_buffer (pending w)))).
    { rewrite fold_world_ResultBuffer, Wb.
      destruct (<[Z.to_nat (m_CurrentInstance w) := v]> (gpu_buffer (pending w))) as [|b0 rest] eqn:HB.
      - apply (f_equal length) in HB. rewrite length_insert in HB. cbn in HB. lia.
      - reflexivity. }
    set (B := <[Z.to_nat (m_CurrentInstance w) := v]> (gpu_buffer (pending w))) in *.
    assert (HBlen : length B = Z.to_nat (m_InstancesPerQuery w))
      by (unfold B; rewrite length_insert; lia).
    constructor.
    + rewrite fold_world_Type. exact Hty.
    + rewrite fold_world_InstancesPerQuery. exact Hcap.
    + rewrite fold_world_CurrentInstance, fold_world_InstancesPerQuery.
      change (m_InstancesPerQuery (suspended w)) with (m_InstancesPerQuery w). lia.
    + rewrite fold_world_Faults. change (Faults (suspended w)) with (Faults w).
      rewrite Hfaults. reflexivity.
    + apply fold_world_Submitted.
    + left. rewrite fold_world_CommandList. exact Hcl.
    + rewrite fold_world_Offset. exact Hoff.
    + rewrite fold_world_QueryHeap, waited_heap_length, fold_world_InstancesPerQuery.
      exact Hheap.
    + rewrite HRB, fold_world_InstancesPerQuery.
      change (m_InstancesPerQuery (suspended w)) with (m_InstancesPerQuery w).
      rewrite <- HBlen. destruct B; [cbn in HBlen; lia | reflexivity].
    + rewrite Hp. change (gpu_ticks (gpu_of (fold_world (suspended w))))
        with (GpuTicks (fold_world (suspended w))).
      rewrite fold_world_GpuTicks. exact Wt.
    + rewrite Hp. change (gpu_buffer (gpu_of (fold_world (suspended w))))
        with (ResultBuffer (fold_world (suspended w))).
      rewrite HRB, fold_world_CurrentInstance. change (Z.to_nat 1) with 1%nat.
      cbn [take]. rewrite <- Hnew.
      destruct B as [|b0 rest]; [cbn in HBlen; lia|]. cbn [hd tail].
      rewrite foldl_add64.
      2:{ left. cbn in HBlen.
          destruct (Z.to_nat (m_CurrentInstance w)) as [|n] eqn:Hn; [lia|].
          destruct rest; [cbn in HBlen; lia | discriminate]. }
      unfold sumZ at 1. cbn [foldr]. rewrite Z.add_0_r.
      rewrite wrap64_small by apply wrap64_range.
      change (S (Z.to_nat (m_CurrentInstance w))) with (1 + Z.to_nat (m_CurrentInstance w))%nat.
      reflexivity.
Qed.

Lemma record_instances (vs done todo : list Z) (w : World) :
  recording done (vs ++ todo) w ->
  exists w', repeatM (length vs) record_instance w = Ok tt w'
             /\ recording (done ++ vs) todo w'
             /\ caller_frame w w'.
Proof.
  revert done w. induction vs as [|v vs IH]; intros done w R.
  - exists w. rewrite app_nil_r. split; [reflexivity|]. split; [exact R|].
    unfold caller_frame. repeat split; lia.
  - destruct (record_instance_step done (vs ++ todo) v w R) as (w1 & Hrun1 & R1 & F1).
    destruct (IH (done ++ [v]) w1 R1) as (w2 & Hrun2 & R2 & F2).
    exists w2. split; [|split].
    + cbn [length repeatM]. rewrite (bind_ok _ _ w w1 tt Hrun1). exact Hrun2.
    + rewrite <- app_assoc in R2. exact R2.
    + destruct F1 as (D1 & E1 & L1), F2 as (D2 & E2 & L2).
      unfold caller_frame. rewrite D2, E2. repeat split; (assumption || lia).
Qed.

Lemma Initialize_ok (w : World) :
  m_Type w = e_QUERY_TIMESTAMP ->
  Faults w = [] ->
  Initialize w = Ok tt (initialized w).
Proof.
  intros Hty Hfaults.
  unfold Initialize, GetHeapType12, CreateQueryHeap, AcquireSuballocatedHeap,
    ThrowFailure, next_fault.
  unmonad. cbn. rewrite Hty. cbn. rewrite Hfaults. cbn. rewrite Hfaults. reflexivity.
Qed.

Lemma initialized_recording (w : World) :
  m_Type w = e_QUERY_TIMESTAMP ->
  2 <= m_InstancesPerQuery w < 2 ^ 29 ->
  Faults w = [] ->
  Submitted w = [] ->
  CommandList w = [] ->
  0 <= ResultBufferOffset w < 2 ^ 63 ->
  recording [] (GpuTicks w) (initialized w).
Proof.
  intros Hty Hcap Hfaults Hsub Hcl Hoff.
  assert (HC : wrap32 (1 * m_InstancesPerQuery w) = m_InstancesPerQuery w)
    by (rewrite Z.mul_1_l; apply wrap32_small; lia).
  assert (Hp : pending (initialized w) = gpu_of (initialized w))
    by (unfold pending; cbn; rewrite Hcl; reflexivity).
  constructor; rewrite ?Hp; unfold initialized; cbn; try assumption; try lia;
    try reflexivity.
  - left. exact Hcl.
  - rewrite length_replicate, HC. reflexivity.
  - rewrite length_replicate, HC. change GetDataSize12 with 8. change sizeof_UINT64 with 8.
    rewrite wrap32_small by lia. rewrite Z.mul_comm, Z.div_mul by lia. reflexivity.
Qed.

Lemma read_recording (done todo : list Z) (w : World) (DataSize : Z)
    (DoNotFlush AsyncGetData : bool) :
  recording done todo w ->
  sizeof_UINT64 <= DataSize ->
  (8 <= length (Dest w))%nat ->
  m_EndedCommandListID w < CommandListID w ->
  exists w',
    (WaitForCompletion >> GetData pDest DataSize DoNotFlush AsyncGetData) w = Ok true w'
    /\ load64 (Dest w') = Some (wrap64 (sumZ done)).
Proof.
  intros [Hty Hcap Hcur Hfaults Hsub Hflush Hoff Hheap Hbuf Hticks Htotal]
    Hsize Hdest Hepoch.
  destruct (waited_gpu w Hsub Hflush) as (_ & _ & Wb).
  destruct (GetDataInternal_timestamp (waited w) DataSize) as (w' & Hrun & HD & _);
    autorewrite with waited; try assumption; try lia.
  - unfold device_ok. rewrite waited_Faults, Hfaults. reflexivity.
  - exists w'. split.
    + rewrite (bind_ok _ _ w (waited w) tt) by apply WaitForCompletion_ok.
      rewrite GetData_finished by (apply waited_finished; exact Hepoch).
      unfold extract_and_report, when_.
      replace (DataSize =? 0) with false by (symmetry; apply Z.eqb_neq; unfold sizeof_UINT64 in Hsize; lia).
      cbn [is_nullptr negb andb].
      rewrite (bind_ok _ _ (waited w) w' tt Hrun). reflexivity.
    + rewrite HD, load64_stored. unfold accumulated.
      rewrite waited_CurrentInstance, Wb, Htotal.
      rewrite wrap64_small by apply wrap64_range. reflexivity.
Qed.

(** C2: on a timestamp query (one 8-byte counter per instance) with two or
    more instances and no device failure, recording any number of instances
    with raw values [vs], in particular [m_InstancesPerQuery + k] of them for
    any [k >= 1], and reading with [GetData] after the GPU has finished gives
    the 64-bit sum of all of [vs], however many folds [AdvanceInstance] went
    through: it is their plain sum when that fits 64 bits. *)
Theorem total_survives_capacity_exhaustion
    (w : World) (vs more : list Z) (DataSize : Z) (DoNotFlush AsyncGetData : bool) :
  m_Type w = e_QUERY_TIMESTAMP ->
  2 <= m_InstancesPerQuery w < 2 ^ 29 ->
  Faults w = [] ->
  Submitted w = [] ->
  CommandList w = [] ->
  0 <= ResultBufferOffset w < 2 ^ 63 ->
  m_EndedCommandListID w < CommandListID w ->
  GpuTicks w = vs ++ more ->
  sizeof_UINT64 <= DataSize ->
  (8 <= length (Dest w))%nat ->
  exists w',
    record_and_read (length vs) DataSize DoNotFlush AsyncGetData w = Ok true w'
    /\ load64 (Dest w') = Some (wrap64 (sumZ vs))
    /\ (is_UINT64 (sumZ vs) -> load64 (Dest w') = Some (sumZ vs)).
Proof.
  intros Hty Hcap Hfaults Hsub Hcl Hoff Hepoch Hticks Hsize Hdest.
  pose proof (initialized_recording w Hty Hcap Hfaults Hsub Hcl Hoff) as R0.
  rewrite Hticks in R0.
  destruct (record_instances vs [] more _ R0) as (w1 & Hrun1 & R1 & HD1 & HE1 & HL1).
  destruct (read_recording _ _ w1 DataSize DoNotFlush AsyncGetData R1 Hsize)
    as (w2 & Hrun2 & Hload).
  { rewrite HD1. exact Hdest. }
  { rewrite HE1. cbn in HL1 |- *. lia. }
  exists w2. split; [|split].
  - unfold record_and_read.
    rewrite (bind_ok _ _ w (initialized w) tt) by (apply Initialize_ok; assumption).
    rewrite (bind_ok _ _ _ w1 tt Hrun1). exact Hrun2.
  - exact Hload.
  - intros Hfit. rewrite Hload, wrap64_small by exact Hfit. reflexivity.
Qed.

Lemma total_survives_capacity_exhaustion_witness :
  let w := fresh_world e_QUERY_TIMESTAMP 4 [10; 20; 30; 40; 5] (le_encode 8 0) in
  exists w',
    record_and_read 5 8 false false w = Ok true w'
    /\ load64 (Dest w') = Some 105
    /\ ResultBuffer w' = [100; 5; 30; 40]
    /\ m_CurrentInstance w' = 2.
Proof.
  intros w.
  destruct (total_survives_capacity_exhaustion w [10; 20; 30; 40; 5] [] 8 false false)
    as (w' & Hrun & Hload & _).
  - reflexivity.
  - vm_compute. split; [discriminate | reflexivity].
  - reflexivity.
  - reflexivity.
  - reflexivity.
  - vm_compute. split; [discriminate | reflexivity].
  - reflexivity.
  - reflexivity.
  - vm_compute. discriminate.
  - vm_compute. lia.
  - exists w'. split; [exact Hrun|]. split; [exact Hload|].
    assert (E : w' = world_of (record_and_read 5 8 false false w)).
    { change 5%nat with (length [10; 20; 30; 40; 5]). rewrite Hrun. reflexivity. }
    rewrite E. vm_compute. split; reflexivity.
Defined.

(** * Further properties of Query.cpp *)

(** ** [Initialize] *)

(** X1: when [CreateQueryHeap] returns a failure code, [Initialize] throws
    [_com_error] with that code to its caller and has acquired no readback
    region and not touched [m_CurrentInstance]: apart from the consumed device
    outcome the world is as before. *)
Theorem Initialize_heap_failure_propagates
    (w : World) (f : option exn) (fs : list (option exn)) :
  m_Type w = e_QUERY_TIMESTAMP ->
  Faults w = f :: fs ->
  FAILED (fault_hr f) = true ->
  Initialize w = Abort (Thrown (_com_error (fault_hr f))) (set_Faults fs w)
  /\ ResultBuffer (world_of (Initialize w)) = ResultBuffer w
  /\ QueryHeap (world_of (Initialize w)) = QueryHeap w
  /\ m_CurrentInstance (world_of (Initialize w)) = m_CurrentInstance w.
Proof.
  intros Hty Hf Hfail.
  assert (E : Initialize w = Abort (Thrown (_com_error (fault_hr f))) (set_Faults fs w)).
  { unfold Initialize, GetHeapType12, CreateQueryHeap, ThrowFailure, next_fault.
    unmonad. cbn. rewrite Hty. cbn. rewrite Hf. cbn. rewrite Hfail. cbn.
    rewrite Hfail. reflexivity. }
  rewrite E. repeat split.
Qed.

Lemma Initialize_heap_failure_propagates_witness :
  let w := set_Faults [Some (_com_error E_OUTOFMEMORY)]
             (fresh_world e_QUERY_TIMESTAMP 4 [] []) in
  Initialize w = Abort (Thrown (_com_error E_OUTOFMEMORY)) (set_Faults [] w).
Proof.
  intros w.
  apply (Initialize_heap_failure_propagates w (Some (_com_error E_OUTOFMEMORY)) []);
    reflexivity.
Defined.

(** X2: when the query heap was created and [AcquireSuballocatedHeap] throws,
    [Initialize] lets the exception through with the heap in place, no region
    and [m_CurrentInstance] not yet reset: the assignment at line 135 is not
    reached. *)
Theorem Initialize_region_failure_propagates
    (w : World) (e : exn) (fs : list (option exn)) :
  m_Type w = e_QUERY_TIMESTAMP ->
  Faults w = None :: Some e :: fs ->
  Initialize w
  = Abort (Thrown e)
      (set_Faults fs
         (set_QueryHeap (replicate (Z.to_nat (wrap32 (1 * m_InstancesPerQuery w))) 0) w))
  /\ ResultBuffer (world_of (Initialize w)) = ResultBuffer w
  /\ m_CurrentInstance (world_of (Initialize w)) = m_CurrentInstance w.
Proof.
  intros Hty Hf.
  assert (E : Initialize w
              = Abort (Thrown e)
                  (set_Faults fs
                     (set_QueryHeap
                        (replicate (Z.to_nat (wrap32 (1 * m_InstancesPerQuery w))) 0) w))).
  { unfold Initialize, GetHeapType12, CreateQueryHeap, AcquireSuballocatedHeap,
      ThrowFailure, next_fault.
    unmonad. cbn. rewrite Hty. cbn. rewrite Hf. cbn. reflexivity. }
  rewrite E. repeat split.
Qed.

Lemma Initialize_region_failure_propagates_witness :
  let w := set_Faults [None; Some bad_alloc] (fresh_world e_QUERY_TIMESTAMP 4 [] []) in
  Initialize w
  = Abort (Thrown bad_alloc) (set_Faults [] (set_QueryHeap [0; 0; 0; 0] w)).
Proof.
  intros w.
  apply (proj1 (Initialize_region_failure_propagates w bad_alloc [] eq_refl eq_refl)).
Defined.

Lemma region_words_eq (cap : Z) :
  0 <= cap < 2 ^ 32 -> region_words cap = cap mod 2 ^ 29.
Proof.
  intros H. unfold region_words.
  change GetDataSize12 with 8. change sizeof_UINT64 with 8.
  rewrite Z.mul_1_l, (wrap32_small cap) by exact H.
  unfold wrap32. change (2 ^ 32) with (8 * 2 ^ 29).
  rewrite Z.mul_mod_distr_l by lia.
  rewrite Z.mul_comm, Z.div_mul by lia. reflexivity.
Qed.

(** X3: with both device calls succeeding and a capacity below 2^29,
    [Initialize] returns with one heap slot and one 8-byte region word per
    instance, [m_CurrentInstance] at 0 and nothing to accumulate yet. *)
Theorem Initialize_allocates_capacity (w : World) :
  m_Type w = e_QUERY_TIMESTAMP ->
  Faults w = [] ->
  0 <= m_InstancesPerQuery w < 2 ^ 29 ->
  Initialize w = Ok tt (initialized w)
  /\ length (QueryHeap (initialized w)) = Z.to_nat (m_InstancesPerQuery w)
  /\ length (ResultBuffer (initialized w)) = Z.to_nat (m_InstancesPerQuery w)
  /\ m_CurrentInstance (initialized w) = 0
  /\ accumulated (initialized w) = 0.
Proof.
  intros Hty Hf Hcap.
  split; [apply Initialize_ok; assumption|].
  assert (HC : wrap32 (1 * m_InstancesPerQuery w) = m_InstancesPerQuery w)
    by (rewrite Z.mul_1_l; apply wrap32_small; lia).
  split.
  { change (QueryHeap (initialized w))
      with (replicate (Z.to_nat (wrap32 (1 * m_InstancesPerQuery w))) 0).
    rewrite length_replicate, HC. reflexivity. }
  split.
  { change (ResultBuffer (initialized w))
      with (replicate (Z.to_nat (region_words (m_InstancesPerQuery w))) 0).
    rewrite length_replicate, region_words_eq by lia.
    rewrite Z.mod_small by lia. reflexivity. }
  split; reflexivity.
Qed.

Lemma Initialize_allocates_capacity_witness :
  let w := fresh_world e_QUERY_TIMESTAMP 4 [] [] in
  Initialize w = Ok tt (initialized w)
  /\ length (QueryHeap (initialized w)) = Z.to_nat (m_InstancesPerQuery w)
  /\ length (ResultBuffer (initialized w)) = Z.to_nat (m_InstancesPerQuery w)
  /\ m_CurrentInstance (initialized w) = 0
  /\ accumulated (initialized w) = 0.
Proof.
  intros w. apply (Initialize_allocates_capacity w); [reflexivity | reflexivity |].
  vm_compute. split; [discriminate | reflexivity].
Defined.

(** X4: the region size is computed in [UINT] arithmetic (line 122).  From a
    capacity of 2^29 on the product wraps: the heap still gets one slot per
    instance, the region only [capacity mod 2^29] words, fewer than there are
    instances. *)
Theorem Initialize_region_size_wraps (w : World) :
  m_Type w = e_QUERY_TIMESTAMP ->
  Faults w = [] ->
  2 ^ 29 <= m_InstancesPerQuery w < 2 ^ 32 ->
  Initialize w = Ok tt (initialized w)
  /\ length (QueryHeap (initialized w)) = Z.to_nat (m_InstancesPerQuery w)
  /\ length (ResultBuffer (initialized w)) = Z.to_nat (m_InstancesPerQuery w mod 2 ^ 29)
  /\ (length (ResultBuffer (initialized w)) < length (QueryHeap (initialized w)))%nat.
Proof.
  intros Hty Hf Hcap.
  split; [apply Initialize_ok; assumption|].
  assert (HC : wrap32 (1 * m_InstancesPerQuery w) = m_InstancesPerQuery w)
    by (rewrite Z.mul_1_l; apply wrap32_small; lia).
  assert (HQ : length (QueryHeap (initialized w)) = Z.to_nat (m_InstancesPerQuery w)).
  { change (QueryHeap (initialized w))
      with (replicate (Z.to_nat (wrap32 (1 * m_InstancesPerQuery w))) 0).
    rewrite length_replicate, HC. reflexivity. }
  assert (HR : length (ResultBuffer (initialized w))
               = Z.to_nat (m_InstancesPerQuery w mod 2 ^ 29)).
  { change (ResultBuffer (initialized w))
      with (replicate (Z.to_nat (region_words (m_InstancesPerQuery w))) 0).
    rewrite length_replicate, region_words_eq by lia. reflexivity. }
  split; [exact HQ|]. split; [exact HR|].
  rewrite HQ, HR.
  pose proof (Z.mod_pos_bound (m_InstancesPerQuery w) (2 ^ 29) ltac:(lia)). lia.
Qed.

Lemma Initialize_region_size_wraps_witness :
  let w := fresh_world e_QUERY_TIMESTAMP (2 ^ 29) [] [] in
  Initialize w = Ok tt (initialized w)
  /\ length (QueryHeap (initialized w)) = Z.to_nat (m_InstancesPerQuery w)
  /\ length (ResultBuffer (initialized w)) = Z.to_nat (m_InstancesPerQuery w mod 2 ^ 29)
  /\ (length (ResultBuffer (initialized w)) < length (QueryHeap (initialized w)))%nat.
Proof.
  intros w. apply (Initialize_region_size_wraps w); [reflexivity | reflexivity |].
  cbn [m_InstancesPerQuery w fresh_world]. lia.
Defined.

(** ** The readiness gate *)

(** [FlushAndPrep] in closed form. *)
Lemma FlushAndPrep_eq (w : World) (DoNotFlush : bool) :
  FlushAndPrep DoNotFlush w
  = if m_EndedCommandListID w =? CommandListID w then
      if DoNotFlush then Ok false w
      else match hd None (Faults w) with
           | Some _ =>
               Ok false (set_Faults (tail (Faults w))
                           (set_Calls (Calls w ++ [CallSubmitCommandList]) w))
           | None => Ok (fence_reached w) (flushed w)
           end
    else Ok (fence_reached w) w.
Proof.
  unfold FlushAndPrep, GetCommandListID, GetCompletedFenceValue, SubmitCommandList,
    next_fault, fence_reached, flushed.
  unmonad. destruct w. cbn.
  destruct (m_EndedCommandListID0 =? CommandListID0).
  - destruct DoNotFlush; [reflexivity|].
    destruct Faults0 as [|[e|] fs]; cbn.
    + destruct (_ <? _); reflexivity.
    + destruct e; reflexivity.
    + destruct (_ <? _); reflexivity.
  - destruct (_ <? _); reflexivity.
Qed.

(** The fields of [flushed]. *)
Lemma flushed_Ended (x : World) : m_EndedCommandListID (flushed x) = m_EndedCommandListID x.
Proof. reflexivity. Qed.

Lemma flushed_CommandListID (x : World) : CommandListID (flushed x) = CommandListID x + 1.
Proof. reflexivity. Qed.

Lemma flushed_Submitted (x : World) :
  Submitted (flushed x) = Submitted x ++ [(CommandListID x, CommandList x)].
Proof. reflexivity. Qed.

Lemma flushed_fence_reached (x : World) : fence_reached (flushed x) = fence_reached x.
Proof. reflexivity. Qed.

(** A [true] answer: the ended list is submitted and finished in the world the
    call leaves, and the only thing the call can have done is one submission. *)
Lemma FlushAndPrep_true_finished (w w' : World) (DoNotFlush : bool) :
  m_EndedCommandListID w <= CommandListID w ->
  FlushAndPrep DoNotFlush w = Ok true w' ->
  finished w'
  /\ (w' = w
      \/ (DoNotFlush = false /\ m_EndedCommandListID w = CommandListID w
          /\ w' = flushed w)).
Proof.
  intros Hle. rewrite FlushAndPrep_eq. unfold fence_reached.
  destruct (Z.eqb_spec (m_EndedCommandListID w) (CommandListID w)) as [E|E].
  - destruct DoNotFlush; [discriminate|].
    destruct (hd None (Faults w)); [discriminate|].
    destruct (Z.ltb_spec (CompletedFenceValue w) (m_EndedCommandListID w));
      [discriminate|].
    intros [= <-]. split.
    + unfold finished. rewrite flushed_Ended, flushed_CommandListID.
      change (CompletedFenceValue (flushed w)) with (CompletedFenceValue w). lia.
    + right. repeat split. exact E.
  - destruct (Z.ltb_spec (CompletedFenceValue w) (m_EndedCommandListID w));
      [discriminate|].
    intros [= <-]. split; [unfold finished; lia | left; reflexivity].
Qed.

(** What a call of [FlushAndPrep] can have changed. *)
Lemma FlushAndPrep_calls (w : World) (DoNotFlush b : bool) (w' : World) :
  FlushAndPrep DoNotFlush w = Ok b w' ->
  Dest w' = Dest w
  /\ ResultBuffer w' = ResultBuffer w
  /\ m_CurrentInstance w' = m_CurrentInstance w
  /\ (Calls w' = Calls w \/ Calls w' = Calls w ++ [CallSubmitCommandList]).
Proof.
  rewrite FlushAndPrep_eq.
  destruct (m_EndedCommandListID w =? CommandListID w).
  - destruct DoNotFlush.
    + intros [= _ <-]. repeat split. left. reflexivity.
    + destruct (hd None (Faults w)); intros [= _ <-]; repeat split; right; reflexivity.
  - intros [= _ <-]. repeat split. left. reflexivity.
Qed.

(** X5: whatever it answers, [FlushAndPrep] leaves the caller's buffer, the
    query's memories, its instance counter, the ended epoch and the completed
    fence alone; the only call that can reach the context is one
    [SubmitCommandList], never a wait; and with [DoNotFlush] set the world is
    unchanged. *)
Theorem FlushAndPrep_frame (w : World) (DoNotFlush : bool) :
  Dest (world_of (FlushAndPrep DoNotFlush w)) = Dest w
  /\ ResultBuffer (world_of (FlushAndPrep DoNotFlush w)) = ResultBuffer w
  /\ QueryHeap (world_of (FlushAndPrep DoNotFlush w)) = QueryHeap w
  /\ GpuTicks (world_of (FlushAndPrep DoNotFlush w)) = GpuTicks w
  /\ m_CurrentInstance (world_of (FlushAndPrep DoNotFlush w)) = m_CurrentInstance w
  /\ m_EndedCommandListID (world_of (FlushAndPrep DoNotFlush w)) = m_EndedCommandListID w
  /\ CompletedFenceValue (world_of (FlushAndPrep DoNotFlush w)) = CompletedFenceValue w
  /\ (Calls (world_of (FlushAndPrep DoNotFlush w)) = Calls w
      \/ Calls (world_of (FlushAndPrep DoNotFlush w)) = Calls w ++ [CallSubmitCommandList])
  /\ world_of (FlushAndPrep true w) = w.
Proof.
  rewrite !FlushAndPrep_eq.
  destruct (m_EndedCommandListID w =? CommandListID w).
  - split; [|split; [|split; [|split; [|split; [|split; [|split; [|split]]]]]]];
      try reflexivity;
      destruct DoNotFlush; try reflexivity; try (left; reflexivity);
      destruct (hd None (Faults w)); try reflexivity; right; reflexivity.
  - repeat split. left. reflexivity.
Qed.

(** X6: a [true] answer of [FlushAndPrep] is sound and lasting.  When the
    ended epoch is not ahead of the list being built and [FlushAndPrep] answers
    [true], then in the world it leaves the ended list is submitted and its
    epoch is at or below the completed fence; the call changed nothing, or,
    when it was allowed to flush and the ended list was the one being built,
    it made exactly one submission; and after any further activity on the
    context the gate answers [true] again, with either flag, leaving the world
    unchanged. *)
Theorem FlushAndPrep_true_means_finished (w w' : World) (DoNotFlush : bool) :
  m_EndedCommandListID w <= CommandListID w ->
  FlushAndPrep DoNotFlush w = Ok true w' ->
  finished w'
  /\ (w' = w
      \/ (DoNotFlush = false /\ m_EndedCommandListID w = CommandListID w
          /\ w' = flushed w))
  /\ (forall (w'' : World) (DoNotFlush' : bool),
        rtc context_step w' w'' -> FlushAndPrep DoNotFlush' w'' = Ok true w'').
Proof.
  intros Hle Hrun.
  destruct (FlushAndPrep_true_finished w w' DoNotFlush Hle Hrun) as [Hfin Hchange].
  split; [exact Hfin|]. split; [exact Hchange|].
  intros w'' DoNotFlush' Hsteps. apply FlushAndPrep_finished.
  apply (context_steps_finished w' w'' Hsteps Hfin).
Qed.

Lemma FlushAndPrep_true_means_finished_witness :
  let w := world_of (completed_measurement
                       (world_of (Initialize (fresh_world e_QUERY_TIMESTAMP 4 [7] [])))) in
  finished w
  /\ (w = w
      \/ (false = false /\ m_EndedCommandListID w = CommandListID w /\ w = flushed w))
  /\ (forall (w'' : World) (DoNotFlush' : bool),
        rtc context_step w w'' -> FlushAndPrep DoNotFlush' w'' = Ok true w'').
Proof.
  intros w. apply (FlushAndPrep_true_means_finished w w false).
  - vm_compute. discriminate.
  - vm_compute. reflexivity.
Defined.

(** X7: when the ended list is the one being built and the device accepts the
    submission, [FlushAndPrep] submits it once, closing the list and opening
    the next epoch, and answers [false] while the fence is behind; every later
    call, with either flag, only compares the fence: it answers the same
    without a second submission. *)
Theorem FlushAndPrep_submits_once (w : World) (DoNotFlush : bool) :
  m_EndedCommandListID w = CommandListID w ->
  device_ok w ->
  FlushAndPrep false w = Ok (fence_reached w) (flushed w)
  /\ FlushAndPrep DoNotFlush (flushed w) = Ok (fence_reached w) (flushed w)
  /\ CommandListID (flushed w) = CommandListID w + 1
  /\ Submitted (flushed w) = Submitted w ++ [(CommandListID w, CommandList w)]
  /\ (CompletedFenceValue w < CommandListID w -> fence_reached w = false).
Proof.
  intros Hend Hdev. rewrite !FlushAndPrep_eq.
  rewrite Hend, Z.eqb_refl, Hdev.
  change (m_EndedCommandListID (flushed w)) with (m_EndedCommandListID w).
  change (CommandListID (flushed w)) with (CommandListID w + 1).
  change (fence_reached (flushed w)) with (fence_reached w).
  rewrite Hend.
  destruct (Z.eqb_spec (CommandListID w) (CommandListID w + 1)); [lia|].
  repeat split.
  intros Hsane. unfold fence_reached. rewrite Hend.
  rewrite (proj2 (Z.ltb_lt _ _) Hsane). reflexivity.
Qed.

Lemma FlushAndPrep_submits_once_witness :
  let w := world_of (End (world_of (Initialize (fresh_world e_QUERY_TIMESTAMP 4 [7] [])))) in
  FlushAndPrep false w = Ok (fence_reached w) (flushed w)
  /\ FlushAndPrep true (flushed w) = Ok (fence_reached w) (flushed w)
  /\ CommandListID (flushed w) = CommandListID w + 1
  /\ Submitted (flushed w) = Submitted w ++ [(CommandListID w, CommandList w)]
  /\ (CompletedFenceValue w < CommandListID w -> fence_reached w = false).
Proof.
  intros w. apply (FlushAndPrep_submits_once w true); reflexivity.
Defined.

(** ** [GetData] behind the gate *)

(** Without [AsyncGetData], [GetData] is the gate followed, when it answers
    [true], by the extraction step. *)
Lemma GetData_gate (w : World) (pData : pvoid) (DataSize : Z) (DoNotFlush : bool) :
  GetData pData DataSize DoNotFlush false w
  = (let* ready := FlushAndPrep DoNotFlush in
     if ready then extract_and_report pData DataSize else ret false) w.
Proof.
  destruct (FlushAndPrep_returns w DoNotFlush) as (b & w1 & H).
  unfold GetData. cbn [negb]. unfold bind at 4. unfold noexcept at 1.
  unfold bind at 1. unfold bind at 1. rewrite H. unfold ret at 1.
  destruct b; cbn [negb].
  - fold (extract_and_report pData DataSize).
    apply (extract_and_report_noexcept pData DataSize w1).
  - reflexivity.
Qed.

Lemma extract_and_report_true (pData : pvoid) (DataSize : Z) (w w' : World) (b : bool) :
  extract_and_report pData DataSize w = Ok b w' -> b = true.
Proof.
  unfold extract_and_report, when_, bind, ret.
  destruct (negb (is_nullptr pData) && negb (DataSize =? 0)).
  - destruct (GetDataInternal pData DataSize w) as [[] w1|x w1]; [|discriminate].
    intros [= <- _]. reflexivity.
  - intros [= <- _]. reflexivity.
Qed.

(** X8: whenever [GetData] returns [false], for any arguments, the call was
    not asynchronous, the answer is the gate's, and the caller's buffer, the
    storage region and the instance counter are as they were: [false] means
    nothing was extracted. *)
Theorem GetData_false_extracts_nothing (w w' : World) (pData : pvoid) (DataSize : Z)
    (DoNotFlush AsyncGetData : bool) :
  GetData pData DataSize DoNotFlush AsyncGetData w = Ok false w' ->
  AsyncGetData = false
  /\ FlushAndPrep DoNotFlush w = Ok false w'
  /\ Dest w' = Dest w
  /\ ResultBuffer w' = ResultBuffer w
  /\ m_CurrentInstance w' = m_CurrentInstance w
  /\ ~ In (CallMap 0 DataSize) (drop (length (Calls w)) (Calls w')).
Proof.
  intros H. destruct AsyncGetData.
  - rewrite GetData_async in H. apply extract_and_report_true in H. discriminate.
  - split; [reflexivity|].
    rewrite GetData_gate in H. unfold bind in H.
    destruct (FlushAndPrep_returns w DoNotFlush) as (b & w1 & Hgate).
    rewrite Hgate in H. destruct b.
    + apply extract_and_report_true in H. discriminate.
    + injection H as <-. split; [exact Hgate|].
      destruct (FlushAndPrep_calls w DoNotFlush false w1 Hgate)
        as (HD & HR & HC & Hcalls).
      split; [exact HD|]. split; [exact HR|]. split; [exact HC|].
      destruct Hcalls as [-> | ->].
      * rewrite drop_all. intros [].
      * rewrite drop_app_length. intros [E|[]]. discriminate.
Qed.

Lemma GetData_false_extracts_nothing_witness :
  let w := world_of (End (world_of (Initialize (fresh_world e_QUERY_TIMESTAMP 4 [7] (le_encode 8 9))))) in
  let w' := flushed w in
  false = false
  /\ FlushAndPrep false w = Ok false w'
  /\ Dest w' = Dest w
  /\ ResultBuffer w' = ResultBuffer w
  /\ m_CurrentInstance w' = m_CurrentInstance w
  /\ ~ In (CallMap 0 8) (drop (length (Calls w)) (Calls w')).
Proof.
  intros w w'.
  apply (GetData_false_extracts_nothing w w' pDest 8 false false).
  vm_compute. reflexivity.
Defined.

(** X9: with no buffer, or with a size of 0, [GetData] without [AsyncGetData]
    is a pure readiness poll: it returns what [FlushAndPrep] returns and
    leaves the world as [FlushAndPrep] leaves it; [GetDataInternal] is not
    called, so no size check applies and no mapping is made. *)
Theorem GetData_without_buffer_polls (w : World) (pData : pvoid) (DataSize : Z)
    (DoNotFlush : bool) :
  is_nullptr pData = true \/ DataSize = 0 ->
  GetData pData DataSize DoNotFlush false w = FlushAndPrep DoNotFlush w.
Proof.
  intros Hnone. rewrite GetData_gate. unfold bind.
  destruct (FlushAndPrep_returns w DoNotFlush) as (b & w1 & Hgate). rewrite Hgate.
  destruct b; [|reflexivity].
  unfold extract_and_report, when_, bind, ret.
  destruct Hnone as [-> | ->]; [reflexivity|].
  rewrite andb_false_r. reflexivity.
Qed.

Lemma GetData_without_buffer_polls_witness :
  let w := world_of (End (world_of (Initialize (fresh_world e_QUERY_TIMESTAMP 4 [7] [])))) in
  GetData pDest 0 false false w = FlushAndPrep false w.
Proof.
  intros w. apply (GetData_without_buffer_polls w pDest 0 false). right. reflexivity.
Defined.

(** X10: a [GetData] without [AsyncGetData] that returns [true] has passed
    the gate.  When the ended epoch is not ahead of the list being built,
    [FlushAndPrep] answered [true] and left a world in which the ended list is
    submitted and its epoch is at or below the completed fence; the gate
    changed nothing, or made one submission when it was allowed to flush; and
    the result of [GetData] is the extraction step run on that world. *)
Theorem GetData_true_extracts_when_finished
    (w w' : World) (pData : pvoid) (DataSize : Z) (DoNotFlush : bool) :
  m_EndedCommandListID w <= CommandListID w ->
  GetData pData DataSize DoNotFlush false w = Ok true w' ->
  exists w1,
    FlushAndPrep DoNotFlush w = Ok true w1
    /\ finished w1
    /\ (w1 = w
        \/ (DoNotFlush = false /\ m_EndedCommandListID w = CommandListID w
            /\ w1 = flushed w))
    /\ extract_and_report pData DataSize w1 = Ok true w'.
Proof.
  intros Hle H. rewrite GetData_gate in H. unfold bind in H.
  destruct (FlushAndPrep_returns w DoNotFlush) as (b & w1 & Hgate).
  rewrite Hgate in H. destruct b; [|discriminate].
  destruct (FlushAndPrep_true_finished w w1 DoNotFlush Hle Hgate) as [Hfin Hchange].
  exists w1. split; [exact Hgate|]. split; [exact Hfin|]. split; [exact Hchange | exact H].
Qed.

Lemma GetData_true_extracts_when_finished_witness :
  let w := world_of (completed_measurement
                       (world_of (Initialize
                                    (fresh_world e_QUERY_TIMESTAMP 4 [7] (le_encode 8 9))))) in
  let w' := world_of (GetData pDest 8 false false w) in
  exists w1,
    FlushAndPrep false w = Ok true w1
    /\ finished w1
    /\ (w1 = w
        \/ (false = false /\ m_EndedCommandListID w = CommandListID w /\ w1 = flushed w))
    /\ extract_and_report pDest 8 w1 = Ok true w'.
Proof.
  intros w w'.
  apply (GetData_true_extracts_when_finished w w' pDest 8 false).
  - vm_compute. discriminate.
  - vm_compute. reflexivity.
Defined.

(** ** [GetDataInternal] *)

Lemma accumulated_range (w : World) : 0 <= accumulated w < 2 ^ 64.
Proof. apply wrap64_range. Qed.

(** The world a successful read of a timestamp query ends in. *)
Lemma GetDataInternal_read (w : World) (DataSize : Z) :
  m_Type w = e_QUERY_TIMESTAMP ->
  0 <= m_CurrentInstance w <= m_InstancesPerQuery w ->
  (Z.to_nat (m_CurrentInstance w) <= length (ResultBuffer w))%nat ->
  sizeof_UINT64 <= DataSize ->
  (8 <= length (Dest w))%nat ->
  device_ok w ->
  GetDataInternal pDest DataSize w = Ok tt (read_world DataSize w).
Proof.
  intros Hty [Hcur0 Hcur] Hlen Hsize Hdest Hdev.
  unfold GetDataInternal. unmonad. cbn -[replicate accumulate].
  rewrite (proj2 (Z.leb_le _ _) Hcur). cbn -[replicate accumulate].
  rewrite Hty. cbn -[replicate accumulate].
  rewrite (proj2 (Z.ltb_ge _ _) Hsize). cbn -[replicate accumulate].
  rewrite store_UINT64_ok by assumption. cbn -[replicate accumulate].
  rewrite Map_ok by exact Hdev. cbn -[replicate accumulate].
  change (GetDataSize12 `mod` sizeof_UINT64 =? 0) with true.
  change (12 * sizeof_UINT64 >=? GetDataSize12) with true.
  change (GetDataSize12 `div` sizeof_UINT64) with 1.
  change (12 >=? 1) with true. cbn -[replicate accumulate].
  pose proof (accumulate_sum (ResultBuffer w) _ Hlen) as Hacc.
  rewrite Z2Nat.id in Hacc by lia. rewrite Hacc. cbn -[replicate].
  rewrite list_lookup_insert_eq by (rewrite length_replicate; lia).
  cbn -[replicate].
  rewrite (load_UINT64_ok _ 0) by apply load64_stored.
  fold (accumulated w).
  destruct (Z.gtb_spec (accumulated w) 0) as [Hpos|Hzero].
  - rewrite store_UINT64_ok by (cbn; rewrite length_app, le_encode_length; lia).
    unfold Unmap, read_world. unmonad. cbn.
    rewrite drop_app_length' by (rewrite le_encode_length; reflexivity).
    reflexivity.
  - assert (Hz : accumulated w = 0) by (pose proof (accumulated_range w); lia).
    unfold Unmap, read_world. unmonad. cbn. rewrite Hz. reflexivity.
Qed.

(** The fields of [read_world]. *)
Lemma read_world_Dest (DataSize : Z) (w : World) :
  Dest (read_world DataSize w) = le_encode 8 (accumulated w) ++ drop 8 (Dest w).
Proof. reflexivity. Qed.

Lemma read_world_CurrentInstance (DataSize : Z) (w : World) :
  m_CurrentInstance (read_world DataSize w) = m_CurrentInstance w.
Proof. reflexivity. Qed.

Lemma read_world_ResultBuffer (DataSize : Z) (w : World) :
  ResultBuffer (read_world DataSize w) = ResultBuffer w.
Proof. reflexivity. Qed.

Lemma read_world_GpuTicks (DataSize : Z) (w : World) :
  GpuTicks (read_world DataSize w) = GpuTicks w.
Proof. reflexivity. Qed.

(** X11: reading does not consume the result.  Two calls of
    [GetDataInternal] in a row on a timestamp query both return, the second
    leaves in the caller's buffer exactly what the first left, and neither
    touches the storage region or the instance counter; each maps and unmaps
    the region once. *)
Theorem GetDataInternal_twice_same_result (w : World) (DataSize DataSize' : Z) :
  m_Type w = e_QUERY_TIMESTAMP ->
  0 <= m_CurrentInstance w <= m_InstancesPerQuery w ->
  (Z.to_nat (m_CurrentInstance w) <= length (ResultBuffer w))%nat ->
  sizeof_UINT64 <= DataSize ->
  sizeof_UINT64 <= DataSize' ->
  (8 <= length (Dest w))%nat ->
  Faults w = [] ->
  (GetDataInternal pDest DataSize >> GetDataInternal pDest DataSize') w
  = Ok tt (read_world DataSize' (read_world DataSize w))
  /\ Dest (read_world DataSize' (read_world DataSize w)) = Dest (read_world DataSize w)
  /\ load64 (Dest (read_world DataSize w)) = Some (accumulated w)
  /\ ResultBuffer (read_world DataSize' (read_world DataSize w)) = ResultBuffer w
  /\ m_CurrentInstance (read_world DataSize' (read_world DataSize w)) = m_CurrentInstance w
  /\ Calls (read_world DataSize' (read_world DataSize w))
     = Calls w ++ [CallMap 0 DataSize; CallUnmap 0 0; CallMap 0 DataSize'; CallUnmap 0 0].
Proof.
  intros Hty Hcur Hlen Hsize Hsize' Hdest Hfaults.
  assert (Hdev : device_ok w) by (unfold device_ok; rewrite Hfaults; reflexivity).
  split.
  { rewrite (bind_ok _ _ w (read_world DataSize w) tt)
      by (apply GetDataInternal_read; assumption).
    apply GetDataInternal_read; try assumption.
    - cbn. rewrite length_app, le_encode_length. lia.
    - unfold device_ok. cbn. rewrite Hfaults. reflexivity. }
  split.
  { rewrite !read_world_Dest.
    change (accumulated (read_world DataSize w)) with (accumulated w).
    rewrite drop_app_length' by (rewrite le_encode_length; reflexivity).
    reflexivity. }
  split.
  { rewrite read_world_Dest, load64_stored.
    f_equal. apply wrap64_small, accumulated_range. }
  split; [reflexivity|]. split; [reflexivity|].
  cbn [Calls read_world set_Calls set_Faults set_Dest].
  rewrite <- !app_assoc. reflexivity.
Qed.

Lemma GetDataInternal_twice_same_result_witness :
  let w := after_first_measurement in
  (GetDataInternal pDest 8 >> GetDataInternal pDest 16) w
  = Ok tt (read_world 16 (read_world 8 w))
  /\ Dest (read_world 16 (read_world 8 w)) = Dest (read_world 8 w)
  /\ load64 (Dest (read_world 8 w)) = Some (accumulated w)
  /\ ResultBuffer (read_world 16 (read_world 8 w)) = ResultBuffer w
  /\ m_CurrentInstance (read_world 16 (read_world 8 w)) = m_CurrentInstance w
  /\ Calls (read_world 16 (read_world 8 w))
     = Calls w ++ [CallMap 0 8; CallUnmap 0 0; CallMap 0 16; CallUnmap 0 0].
Proof.
  intros w. apply (GetDataInternal_twice_same_result w 8 16).
  - reflexivity.
  - vm_compute. split; discriminate.
  - vm_compute. lia.
  - vm_compute. discriminate.
  - vm_compute. discriminate.
  - vm_compute. lia.
  - reflexivity.
Defined.

(** X12: when mapping the region fails, [GetDataInternal] on a timestamp
    query has already cleared the caller's first 8 bytes; the [_com_error] of
    [ThrowFailure] then meets the [noexcept] boundary and ends the program.
    [Unmap] is not called, and [GetData] ends the same way. *)
Theorem GetDataInternal_map_failure_terminates
    (w : World) (DataSize : Z) (f : option exn) (fs : list (option exn)) :
  m_Type w = e_QUERY_TIMESTAMP ->
  m_CurrentInstance w <= m_InstancesPerQuery w ->
  sizeof_UINT64 <= DataSize ->
  (8 <= length (Dest w))%nat ->
  Faults w = f :: fs ->
  FAILED (fault_hr f) = true ->
  let w' := set_Faults fs
              (set_Calls (Calls w ++ [CallMap 0 DataSize])
                 (set_Dest (le_encode 8 0 ++ drop 8 (Dest w)) w)) in
  GetDataInternal pDest DataSize w = Abort (Terminated (_com_error (fault_hr f))) w'
  /\ GetData pDest DataSize true true w = Abort (Terminated (_com_error (fault_hr f))) w'
  /\ load64 (Dest w') = Some 0.
Proof.
  intros Hty Hcur Hsize Hdest Hfaults Hfail w'.
  assert (Hrun : GetDataInternal pDest DataSize w
                 = Abort (Terminated (_com_error (fault_hr f))) w').
  { unfold GetDataInternal. unmonad. cbn -[replicate accumulate].
    rewrite (proj2 (Z.leb_le _ _) Hcur). cbn -[replicate accumulate].
    rewrite Hty. cbn -[replicate accumulate].
    rewrite (proj2 (Z.ltb_ge _ _) Hsize). cbn -[replicate accumulate].
    rewrite store_UINT64_ok by assumption. cbn -[replicate accumulate].
    unfold Map, next_fault, ThrowFailure. unmonad. cbn -[replicate accumulate].
    rewrite Hfaults. cbn -[replicate accumulate]. rewrite Hfail. reflexivity. }
  split; [exact Hrun|]. split.
  - rewrite GetData_async. unfold extract_and_report, when_, bind.
    replace (DataSize =? 0) with false
      by (symmetry; apply Z.eqb_neq; unfold sizeof_UINT64 in Hsize; lia).
    cbn [is_nullptr negb andb]. rewrite Hrun. reflexivity.
  - apply load64_stored.
Qed.

Lemma GetDataInternal_map_failure_terminates_witness :
  let w := set_Faults [Some (_com_error E_OUTOFMEMORY)] after_first_measurement in
  let w' := set_Faults []
              (set_Calls (Calls w ++ [CallMap 0 8])
                 (set_Dest (le_encode 8 0 ++ drop 8 (Dest w)) w)) in
  GetDataInternal pDest 8 w = Abort (Terminated (_com_error E_OUTOFMEMORY)) w'
  /\ GetData pDest 8 true true w = Abort (Terminated (_com_error E_OUTOFMEMORY)) w'
  /\ load64 (Dest w') = Some 0.
Proof.
  intros w.
  apply (GetDataInternal_map_failure_terminates w 8 (Some (_com_error E_OUTOFMEMORY)) []).
  - reflexivity.
  - vm_compute. discriminate.
  - vm_compute. discriminate.
  - vm_compute. lia.
  - reflexivity.
  - reflexivity.
Defined.

(** X13: for a query of a kind other than timestamp, [GetDataInternal] makes
    no size check and does not clear the destination: what the caller's first
    8 bytes hold afterwards is the larger of what they held and the
    accumulated value, and they are rewritten only when the accumulated value
    is the larger one. *)
Theorem GetDataInternal_other_kind_keeps_maximum (w : World) (DataSize old : Z) :
  m_Type w = e_QUERY_OTHER ->
  0 <= m_CurrentInstance w <= m_InstancesPerQuery w ->
  (Z.to_nat (m_CurrentInstance w) <= length (ResultBuffer w))%nat ->
  load64 (Dest w) = Some old ->
  device_ok w ->
  exists w',
    GetDataInternal pDest DataSize w = Ok tt w'
    /\ load64 (Dest w') = Some (Z.max old (accumulated w))
    /\ (accumulated w <= old -> Dest w' = Dest w).
Proof.
  intros Hty [Hcur0 Hcur] Hlen Hold Hdev.
  assert (Hdest : (8 <= length (Dest w))%nat).
  { unfold load64 in Hold. destruct (Nat.leb_spec 8 (length (Dest w))); [assumption|].
    discriminate. }
  unfold GetDataInternal. unmonad. cbn -[replicate accumulate].
  rewrite (proj2 (Z.leb_le _ _) Hcur). cbn -[replicate accumulate].
  rewrite Hty. cbn -[replicate accumulate].
  rewrite Map_ok by exact Hdev. cbn -[replicate accumulate].
  change (GetDataSize12 `mod` sizeof_UINT64 =? 0) with true.
  change (12 * sizeof_UINT64 >=? GetDataSize12) with true.
  change (GetDataSize12 `div` sizeof_UINT64) with 1.
  change (12 >=? 1) with true. cbn -[replicate accumulate].
  pose proof (accumulate_sum (ResultBuffer w) _ Hlen) as Hacc.
  rewrite Z2Nat.id in Hacc by lia. rewrite Hacc. cbn -[replicate].
  rewrite list_lookup_insert_eq by (rewrite length_replicate; lia).
  cbn -[replicate].
  rewrite (load_UINT64_ok _ old) by exact Hold.
  fold (accumulated w).
  destruct (Z.gtb_spec (accumulated w) old) as [Hgt|Hle].
  - rewrite store_UINT64_ok by exact Hdest.
    unfold Unmap. unmonad. cbn.
    eexists. split; [reflexivity|]. cbn. split.
    + rewrite load64_stored, Z.max_r by lia.
      f_equal. apply wrap64_small, accumulated_range.
    + intros Hle. lia.
  - unfold Unmap. unmonad. cbn.
    eexists. split; [reflexivity|]. cbn. split.
    + rewrite Z.max_l by lia. exact Hold.
    + reflexivity.
Qed.

Lemma GetDataInternal_other_kind_keeps_maximum_witness :
  let w := set_m_Type e_QUERY_OTHER
             (set_Dest (le_encode 8 1200) after_first_measurement) in
  exists w',
    GetDataInternal pDest 4 w = Ok tt w'
    /\ load64 (Dest w') = Some (Z.max 1200 (accumulated w))
    /\ (accumulated w <= 1200 -> Dest w' = Dest w).
Proof.
  intros w. apply (GetDataInternal_other_kind_keeps_maximum w 4 1200).
  - reflexivity.
  - vm_compute. split; discriminate.
  - vm_compute. lia.
  - vm_compute. reflexivity.
  - reflexivity.
Defined.

(** ** A query from construction to its result *)

(** X14: a query that was constructed and initialized but never ended reads
    as 0 (line 231: "If the query was never issued, then 0 will be returned").
    The constructor leaves [m_EndedCommandListID] at 0, so on a context that is
    building a list with a positive epoch the gate answers [true] at once,
    nothing is submitted, and [GetData] stores 0 whatever the buffer held. *)
Theorem never_ended_query_reads_zero (w : World) (Type_ : EQueryType) (DataSize : Z)
    (DoNotFlush AsyncGetData : bool) :
  Type_ = e_QUERY_TIMESTAMP ->
  0 < CommandListID w ->
  0 <= CompletedFenceValue w ->
  Faults w = [] ->
  0 <= m_InstancesPerQuery w ->
  sizeof_UINT64 <= DataSize ->
  (8 <= length (Dest w))%nat ->
  exists w',
    (Async_ctor Type_ >> Initialize >> GetData pDest DataSize DoNotFlush AsyncGetData) w
    = Ok true w'
    /\ load64 (Dest w') = Some 0
    /\ drop 8 (Dest w') = drop 8 (Dest w)
    /\ CommandListID w' = CommandListID w
    /\ Submitted w' = Submitted w
    /\ CommandList w' = CommandList w.
Proof.
  intros -> Hid Hfence Hfaults Hcap Hsize Hdest.
  set (w0 := set_m_EndedCommandListID 0 (set_m_Type e_QUERY_TIMESTAMP w)).
  assert (H0 : Async_ctor e_QUERY_TIMESTAMP w = Ok tt w0) by reflexivity.
  assert (H1 : Initialize w0 = Ok tt (initialized w0))
    by (apply Initialize_ok; [reflexivity | exact Hfaults]).
  assert (Hfin : finished (initialized w0)).
  { unfold finished.
    change (m_EndedCommandListID (initialized w0)) with 0.
    change (CommandListID (initialized w0)) with (CommandListID w).
    change (CompletedFenceValue (initialized w0)) with (CompletedFenceValue w).
    lia. }
  assert (H2 : GetDataInternal pDest DataSize (initialized w0)
               = Ok tt (read_world DataSize (initialized w0))).
  { apply GetDataInternal_read;
      [reflexivity | | | exact Hsize | exact Hdest |].
    - change (m_CurrentInstance (initialized w0)) with 0.
      change (m_InstancesPerQuery (initialized w0)) with (m_InstancesPerQuery w). lia.
    - change (m_CurrentInstance (initialized w0)) with 0. cbn. lia.
    - unfold device_ok. change (Faults (initialized w0)) with (Faults w).
      rewrite Hfaults. reflexivity. }
  exists (read_world DataSize (initialized w0)). split.
  - rewrite (bind_ok _ _ w w0 tt H0), (bind_ok _ _ w0 _ tt H1).
    rewrite GetData_finished by exact Hfin.
    unfold extract_and_report, when_.
    replace (DataSize =? 0) with false
      by (symmetry; apply Z.eqb_neq; unfold sizeof_UINT64 in Hsize; lia).
    cbn [is_nullptr negb andb].
    rewrite (bind_ok _ _ _ _ tt H2). reflexivity.
  - change (Dest (read_world DataSize (initialized w0)))
      with (le_encode 8 (accumulated (initialized w0)) ++ drop 8 (Dest w)).
    change (accumulated (initialized w0)) with (wrap64 0).
    split; [apply load64_stored|]. split.
    + rewrite drop_app_length' by (rewrite le_encode_length; reflexivity). reflexivity.
    + repeat split.
Qed.

Lemma never_ended_query_reads_zero_witness :
  let w := fresh_world e_QUERY_OTHER 4 [7] (le_encode 8 1200) in
  exists w',
    (Async_ctor e_QUERY_TIMESTAMP >> Initialize >> GetData pDest 8 false false) w
    = Ok true w'
    /\ load64 (Dest w') = Some 0
    /\ drop 8 (Dest w') = drop 8 (Dest w)
    /\ CommandListID w' = CommandListID w
    /\ Submitted w' = Submitted w
    /\ CommandList w' = CommandList w.
Proof.
  intros w. apply (never_ended_query_reads_zero w e_QUERY_TIMESTAMP 8 false false).
  - reflexivity.
  - reflexivity.
  - vm_compute. discriminate.
  - reflexivity.
  - vm_compute. discriminate.
  - vm_compute. discriminate.
  - vm_compute. lia.
Defined.

(** What the GPU will have recorded once the commands of [End] have run: the
    next raw value, in instance 0. *)
Lemma ended_pending (w : World) (v : Z) (todo : list Z) :
  gpu_ticks (pending w) = v :: todo ->
  0 <= ResultBufferOffset w < 2 ^ 63 ->
  (0 < length (QueryHeap w))%nat ->
  pending (set_m_EndedCommandListID (CommandListID w) (ended_internal w))
  = mkGpu todo (<[0%nat := v]> (gpu_heap (pending w)))
      (<[0%nat := v]> (gpu_buffer (pending w))).
Proof.
  intros Hticks Hoff Hheap.
  change (pending (set_m_EndedCommandListID (CommandListID w) (ended_internal w)))
    with (pending (suspended (set_m_CurrentInstance 0 w))).
  rewrite pending_suspended.
  change (pending (set_m_CurrentInstance 0 w)) with (pending w).
  change (m_CurrentInstance (set_m_CurrentInstance 0 w)) with 0.
  change (ResultBufferOffset (set_m_CurrentInstance 0 w)) with (ResultBufferOffset w).
  rewrite (gpu_records_instance _ 0 v todo); [reflexivity | assumption | assumption | lia |].
  destruct (pending_lengths w) as [-> _]. exact Hheap.
Qed.

(** X15: [End] starts the measurement over.  After any number of instances
    recorded with raw values [vs], including more than the capacity, [End]
    records the next raw value [v] into instance 0 and sets the counter to 1,
    so once the GPU has finished [GetData] returns [v] alone: nothing of [vs]
    is in the result. *)
Theorem End_restarts_measurement
    (w : World) (vs more : list Z) (v DataSize : Z) (DoNotFlush AsyncGetData : bool) :
  m_Type w = e_QUERY_TIMESTAMP ->
  2 <= m_InstancesPerQuery w < 2 ^ 29 ->
  Faults w = [] ->
  Submitted w = [] ->
  CommandList w = [] ->
  0 <= ResultBufferOffset w < 2 ^ 63 ->
  GpuTicks w = vs ++ v :: more ->
  sizeof_UINT64 <= DataSize ->
  (8 <= length (Dest w))%nat ->
  exists w',
    record_end_and_read (length vs) DataSize DoNotFlush AsyncGetData w = Ok true w'
    /\ load64 (Dest w') = Some (wrap64 v)
    /\ m_CurrentInstance w' = 1
    /\ GpuTicks w' = more.
Proof.
  intros Hty Hcap Hfaults Hsub Hcl Hoff Hticks Hsize Hdest.
  pose proof (initialized_recording w Hty Hcap Hfaults Hsub Hcl Hoff) as R0.
  rewrite Hticks in R0.
  destruct (record_instances vs [] (v :: more) _ R0) as (w1 & Hrun1 & R1 & HD1 & HE1 & HL1).
  destruct R1 as [Hty1 Hcap1 Hcur1 Hfaults1 Hsub1 Hflush1 Hoff1 Hheap1 Hbuf1 Hticks1 _].
  set (w2 := set_m_EndedCommandListID (CommandListID w1) (ended_internal w1)).
  assert (Hend : End w1 = Ok tt w2) by (apply End_ok; [assumption | lia]).
  assert (Hpend : pending w2
                  = mkGpu more (<[0%nat := v]> (gpu_heap (pending w1)))
                      (<[0%nat := v]> (gpu_buffer (pending w1))))
    by (apply ended_pending; [assumption | assumption | lia]).
  destruct (waited_gpu w2) as (Wt & _ & Wb); [exact Hsub1 | right; reflexivity |].
  rewrite Hpend in Wt, Wb. cbn [gpu_ticks gpu_buffer] in Wt, Wb.
  assert (Hfin : finished (waited w2)).
  { apply WaitForCompletion_finishes. apply (End_issued w1 w2 Hend). }
  destruct (pending_lengths w1) as [_ Hpb].
  assert (Hread : GetDataInternal pDest DataSize (waited w2)
                  = Ok tt (read_world DataSize (waited w2))).
  { apply GetDataInternal_read; autorewrite with waited; try assumption.
    - change (m_CurrentInstance w2) with 1.
      change (m_InstancesPerQuery w2) with (m_InstancesPerQuery w1). lia.
    - change (m_CurrentInstance w2) with 1.
      change (ResultBuffer w2) with (ResultBuffer w1). rewrite Hbuf1. lia.
    - change (Dest w2) with (Dest w1). rewrite HD1. exact Hdest.
    - unfold device_ok. rewrite waited_Faults.
      change (Faults w2) with (Faults w1). rewrite Hfaults1. reflexivity. }
  exists (read_world DataSize (waited w2)). split; [|split; [|split]].
  - unfold record_end_and_read.
    rewrite (bind_ok _ _ w (initialized w) tt) by (apply Initialize_ok; assumption).
    rewrite (bind_ok _ _ _ w1 tt Hrun1), (bind_ok _ _ w1 w2 tt Hend).
    rewrite (bind_ok _ _ w2 (waited w2) tt) by apply WaitForCompletion_ok.
    rewrite GetData_finished by exact Hfin.
    unfold extract_and_report, when_.
    replace (DataSize =? 0) with false
      by (symmetry; apply Z.eqb_neq; unfold sizeof_UINT64 in Hsize; lia).
    cbn [is_nullptr negb andb].
    rewrite (bind_ok _ _ _ _ tt Hread). reflexivity.
  - rewrite read_world_Dest, load64_stored. unfold accumulated.
    rewrite waited_CurrentInstance, Wb.
    change (m_CurrentInstance w2) with 1. change (Z.to_nat 1) with 1%nat.
    destruct (gpu_buffer (pending w1)) as [|b0 rest]; [cbn in Hpb; lia|].
    cbn [take]. change (<[0%nat := v]> (b0 :: rest)) with (v :: rest).
    cbn [take sumZ foldr]. rewrite Z.add_0_r.
    rewrite wrap64_small by apply wrap64_range. reflexivity.
  - rewrite read_world_CurrentInstance, waited_CurrentInstance. reflexivity.
  - rewrite read_world_GpuTicks. exact Wt.
Qed.

Lemma End_restarts_measurement_witness :
  let w := fresh_world e_QUERY_TIMESTAMP 4 [10; 20; 30; 40; 5; 7] (le_encode 8 1200) in
  exists w',
    record_end_and_read 5 8 false false w = Ok true w'
    /\ load64 (Dest w') = Some (wrap64 7)
    /\ m_CurrentInstance w' = 1
    /\ GpuTicks w' = [].
Proof.
  intros w.
  apply (End_restarts_measurement w [10; 20; 30; 40; 5] [] 7 8 false false).
  - reflexivity.
  - vm_compute. split; [discriminate | reflexivity].
  - reflexivity.
  - reflexivity.
  - reflexivity.
  - vm_compute. split; [discriminate | reflexivity].
  - reflexivity.
  - vm_compute. discriminate.
  - vm_compute. lia.
Defined.

(** ** Polling without a wait *)

(** The GPU finishes the batch a successful [SubmitCommandList] has just
    submitted on an otherwise idle context. *)
Lemma GpuRetire_flushed (x : World) :
  Submitted x = [] ->
  GpuRetire (flushed x)
  = set_CompletedFenceValue (Z.max (CompletedFenceValue x) (CommandListID x))
      (set_Submitted [] (gpu_run (CommandList x) (flushed x))).
Proof.
  intros H. unfold GpuRetire. rewrite flushed_Submitted, H. reflexivity.
Qed.

Lemma gpu_run_flushed (x : World) :
  ResultBuffer (gpu_run (CommandList x) (flushed x)) = gpu_buffer (pending x).
Proof. reflexivity. Qed.

Lemma retired_fields (x : World) :
  Submitted x = [] ->
  m_Type (GpuRetire (flushed x)) = m_Type x
  /\ m_CurrentInstance (GpuRetire (flushed x)) = m_CurrentInstance x
  /\ m_InstancesPerQuery (GpuRetire (flushed x)) = m_InstancesPerQuery x
  /\ Dest (GpuRetire (flushed x)) = Dest x
  /\ Faults (GpuRetire (flushed x)) = tail (Faults x)
  /\ m_EndedCommandListID (GpuRetire (flushed x)) = m_EndedCommandListID x
  /\ CommandListID (GpuRetire (flushed x)) = CommandListID x + 1
  /\ CompletedFenceValue (GpuRetire (flushed x))
     = Z.max (CompletedFenceValue x) (CommandListID x)
  /\ ResultBuffer (GpuRetire (flushed x)) = gpu_buffer (pending x).
Proof.
  intros H. rewrite GpuRetire_flushed by exact H.
  cbn [m_Type m_CurrentInstance m_InstancesPerQuery Dest Faults m_EndedCommandListID
       CommandListID CompletedFenceValue ResultBuffer
       set_CompletedFenceValue set_Submitted].
  autorewrite with gpu_frame. rewrite gpu_run_flushed. repeat split.
Qed.

Lemma initialized_lengths (w : World) :
  0 <= m_InstancesPerQuery w < 2 ^ 29 ->
  length (QueryHeap (initialized w)) = Z.to_nat (m_InstancesPerQuery w)
  /\ length (ResultBuffer (initialized w)) = Z.to_nat (m_InstancesPerQuery w).
Proof.
  intros Hcap.
  assert (HC : wrap32 (1 * m_InstancesPerQuery w) = m_InstancesPerQuery w)
    by (rewrite Z.mul_1_l; apply wrap32_small; lia).
  split.
  - change (QueryHeap (initialized w))
      with (replicate (Z.to_nat (wrap32 (1 * m_InstancesPerQuery w))) 0).
    rewrite length_replicate, HC. reflexivity.
  - change (ResultBuffer (initialized w))
      with (replicate (Z.to_nat (region_words (m_InstancesPerQuery w))) 0).
    rewrite length_replicate, region_words_eq by lia.
    rewrite Z.mod_small by lia. reflexivity.
Qed.

(** X16: the life of a measurement that is polled instead of waited for,
    through the entry points of the context, on a query with one instance or
    more.  After [Initialize] and [QueryEnd] the ended list is the one being
    built: a poll with [DoNotFlush] answers [false] and changes nothing; the
    first poll that may flush submits the list and still answers [false];
    further polls answer [false] and submit nothing; and once the GPU has
    finished the batch, the poll answers [true] and stores the raw value the
    GPU recorded. *)
Theorem query_polled_until_ready (w : World) (v : Z) (more : list Z) (DoNotFlush : bool) :
  m_Type w = e_QUERY_TIMESTAMP ->
  1 <= m_InstancesPerQuery w < 2 ^ 29 ->
  Faults w = [] ->
  Submitted w = [] ->
  CommandList w = [] ->
  0 <= ResultBufferOffset w < 2 ^ 63 ->
  CompletedFenceValue w < CommandListID w ->
  GpuTicks w = v :: more ->
  (8 <= length (Dest w))%nat ->
  exists w1,
    (Initialize >> QueryEnd) w = Ok tt w1
    /\ QueryGetData pDest 8 true false w1 = Ok false w1
    /\ QueryGetData pDest 8 false false w1 = Ok false (flushed w1)
    /\ QueryGetData pDest 8 DoNotFlush false (flushed w1) = Ok false (flushed w1)
    /\ exists w',
         QueryGetData pDest 8 DoNotFlush false (GpuRetire (flushed w1)) = Ok true w'
         /\ load64 (Dest w') = Some (wrap64 v).
Proof.
  intros Hty Hcap Hfaults Hsub Hcl Hoff Hsane Hticks Hdest.
  unfold QueryEnd, QueryGetData.
  set (w0 := initialized w).
  set (w1 := set_m_EndedCommandListID (CommandListID w0) (ended_internal w0)).
  assert (Hend : End w0 = Ok tt w1) by (apply End_ok; [exact Hty | cbn; lia]).
  assert (HE1 : m_EndedCommandListID w1 = CommandListID w) by reflexivity.
  assert (HI1 : CommandListID w1 = CommandListID w) by reflexivity.
  assert (HC1 : CompletedFenceValue w1 = CompletedFenceValue w) by reflexivity.
  assert (HF1 : Faults w1 = []) by exact Hfaults.
  assert (Hfence : fence_reached w1 = false).
  { unfold fence_reached. rewrite HE1, HC1.
    rewrite (proj2 (Z.ltb_lt _ _) Hsane). reflexivity. }
  assert (Hpoll : forall dnf,
             FlushAndPrep dnf w1 = if dnf then Ok false w1 else Ok false (flushed w1)).
  { intros dnf. rewrite FlushAndPrep_eq, HE1, HI1, Z.eqb_refl, HF1, Hfence.
    reflexivity. }
  assert (Hagain : FlushAndPrep DoNotFlush (flushed w1) = Ok false (flushed w1)).
  { rewrite FlushAndPrep_eq, flushed_Ended, flushed_CommandListID, flushed_fence_reached.
    rewrite HE1, HI1, Hfence.
    destruct (Z.eqb_spec (CommandListID w) (CommandListID w + 1)); [lia | reflexivity]. }
  destruct (initialized_lengths w) as [Hheap Hbuf]; [lia|]. fold w0 in Hheap, Hbuf.
  assert (Hp0 : pending w0 = gpu_of w0) by (apply pending_flushed; exact Hcl).
  assert (Hpend : pending w1
                  = mkGpu more (<[0%nat := v]> (gpu_heap (pending w0)))
                      (<[0%nat := v]> (gpu_buffer (pending w0)))).
  { apply ended_pending; [rewrite Hp0; exact Hticks | exact Hoff | rewrite Hheap; lia]. }
  destruct (retired_fields w1 Hsub) as (Rty & Rcur & Rcap & Rdest & Rfaults & Rend & Rid
                                        & Rfence & Rbuf).
  rewrite Hpend, Hp0 in Rbuf. cbn [gpu_buffer gpu_of] in Rbuf.
  set (w3 := GpuRetire (flushed w1)) in *.
  assert (Hlen3 : length (ResultBuffer w3) = Z.to_nat (m_InstancesPerQuery w))
    by (rewrite Rbuf, length_insert; exact Hbuf).
  assert (Hfin : finished w3).
  { unfold finished. rewrite Rend, Rid, Rfence, HE1, HI1. lia. }
  assert (Hread : GetDataInternal pDest 8 w3 = Ok tt (read_world 8 w3)).
  { apply GetDataInternal_read.
    - rewrite Rty. exact Hty.
    - rewrite Rcur, Rcap. change (m_CurrentInstance w1) with 1.
      change (m_InstancesPerQuery w1) with (m_InstancesPerQuery w). lia.
    - rewrite Rcur, Hlen3. change (m_CurrentInstance w1) with 1. lia.
    - reflexivity.
    - rewrite Rdest. exact Hdest.
    - unfold device_ok. rewrite Rfaults, HF1. reflexivity. }
  exists w1. split; [|split; [|split; [|split]]].
  - rewrite (bind_ok _ _ w w0 tt) by (apply Initialize_ok; assumption). exact Hend.
  - rewrite GetData_gate. unfold bind. rewrite Hpoll. reflexivity.
  - rewrite GetData_gate. unfold bind. rewrite Hpoll. reflexivity.
  - rewrite GetData_gate. unfold bind. rewrite Hagain. reflexivity.
  - exists (read_world 8 w3). split.
    + rewrite GetData_finished by exact Hfin.
      unfold extract_and_report, when_. cbn [is_nullptr negb andb Z.eqb].
      rewrite (bind_ok _ _ _ _ tt Hread). reflexivity.
    + rewrite read_world_Dest, load64_stored. unfold accumulated.
      rewrite Rcur, Rbuf. change (m_CurrentInstance w1) with 1.
      change (Z.to_nat 1) with 1%nat.
      destruct (ResultBuffer w0) as [|b0 rest]; [cbn in Hbuf; lia|].
      change (<[0%nat := v]> (b0 :: rest)) with (v :: rest).
      cbn [take sumZ foldr]. rewrite Z.add_0_r.
      rewrite wrap64_small by apply wrap64_range. reflexivity.
Qed.

Lemma query_polled_until_ready_witness :
  let w := fresh_world e_QUERY_TIMESTAMP 1 [1000] (le_encode 8 1200) in
  exists w1,
    (Initialize >> QueryEnd) w = Ok tt w1
    /\ QueryGetData pDest 8 true false w1 = Ok false w1
    /\ QueryGetData pDest 8 false false w1 = Ok false (flushed w1)
    /\ QueryGetData pDest 8 true false (flushed w1) = Ok false (flushed w1)
    /\ exists w',
         QueryGetData pDest 8 true false (GpuRetire (flushed w1)) = Ok true w'
         /\ load64 (Dest w') = Some (wrap64 1000).
Proof.
  intros w. apply (query_polled_until_ready w 1000 [] true).
  - reflexivity.
  - vm_compute. split; [discriminate | reflexivity].
  - reflexivity.
  - reflexivity.
  - reflexivity.
  - vm_compute. split; [discriminate | reflexivity].
  - reflexivity.
  - reflexivity.
  - vm_compute. lia.
Defined.

(** ** Failures and assertions of [AdvanceInstance] and [Suspend] *)

(** X17: when the mapping fails on the capacity-exhausted branch,
    [AdvanceInstance] throws the [_com_error] to its caller (it is not
    [noexcept]).  The wait has already happened, so no batch is outstanding,
    but nothing was folded: the region is as the GPU left it and
    [m_CurrentInstance] still names the last instance. *)
Theorem AdvanceInstance_map_failure_throws
    (w : World) (f : option exn) (fs : list (option exn)) :
  0 <= m_CurrentInstance w ->
  m_CurrentInstance w + 1 = m_InstancesPerQuery w ->
  m_InstancesPerQuery w < 2 ^ 32 ->
  Faults w = f :: fs ->
  FAILED (fault_hr f) = true ->
  let w' := set_Faults fs
              (set_Calls (Calls (waited w)
                            ++ [CallMap 0 (wrap32 (wrap32 (GetDataSize12 * 1)
                                                     * m_InstancesPerQuery w))])
                 (waited w)) in
  AdvanceInstance w = Abort (Thrown (_com_error (fault_hr f))) w'
  /\ m_CurrentInstance w' = m_CurrentInstance w
  /\ ResultBuffer w' = ResultBuffer (waited w)
  /\ Submitted w' = [].
Proof.
  intros H0 H1 H32 Hfaults Hfail w'. split; [|split; [|split]].
  - unfold AdvanceInstance. unmonad. cbn.
    rewrite (proj2 (Z.ltb_lt _ _)) by lia. cbn.
    rewrite wrap32_small by lia.
    rewrite (proj2 (Z.ltb_ge _ _)) by lia. cbn.
    rewrite WaitForCompletion_ok. cbn.
    unfold Map, next_fault, ThrowFailure. unmonad. cbn.
    rewrite waited_Faults, Hfaults. cbn. rewrite Hfail. reflexivity.
  - unfold w'. cbn [m_CurrentInstance set_Faults set_Calls]. apply waited_CurrentInstance.
  - reflexivity.
  - unfold w'. cbn [Submitted set_Faults set_Calls]. apply waited_Submitted.
Qed.

Lemma AdvanceInstance_map_failure_throws_witness :
  let w := set_Faults [Some bad_alloc] (four_recorded []) in
  let w' := set_Faults []
              (set_Calls (Calls (waited w)
                            ++ [CallMap 0 (wrap32 (wrap32 (GetDataSize12 * 1)
                                                     * m_InstancesPerQuery w))])
                 (waited w)) in
  AdvanceInstance w = Abort (Thrown (_com_error E_OUTOFMEMORY)) w'
  /\ m_CurrentInstance w' = m_CurrentInstance w
  /\ ResultBuffer w' = ResultBuffer (waited w)
  /\ Submitted w' = [].
Proof.
  intros w.
  apply (AdvanceInstance_map_failure_throws w (Some bad_alloc) []).
  - vm_compute. discriminate.
  - vm_compute. reflexivity.
  - vm_compute. reflexivity.
  - reflexivity.
  - reflexivity.
Defined.

(** X18: [Suspend] is all or nothing.  On a timestamp query whose current
    instance is below the capacity it returns, having recorded its two
    commands; in every other world it stops at an assertion (line 141 for the
    range, line 88 for the kind) with the world unchanged: no command is
    recorded, the context is not told of commands and
    [m_LastUsedCommandListID] does not move. *)
Theorem Suspend_all_or_nothing (w : World) :
  (m_Type w = e_QUERY_TIMESTAMP
   /\ m_CurrentInstance w < m_InstancesPerQuery w
   /\ Suspend w = Ok tt (suspended w))
  \/ (m_InstancesPerQuery w <= m_CurrentInstance w
      /\ Suspend w = Abort (AssertFailed 141) w)
  \/ (m_Type w <> e_QUERY_TIMESTAMP
      /\ m_CurrentInstance w < m_InstancesPerQuery w
      /\ Suspend w = Abort (AssertFailed 88) w).
Proof.
  destruct (Z.lt_ge_cases (m_CurrentInstance w) (m_InstancesPerQuery w)) as [Hin|Hout].
  - destruct (m_Type w) eqn:Hty.
    + left. split; [reflexivity|]. split; [exact Hin|]. apply Suspend_ok; assumption.
    + right. right. split; [discriminate|]. split; [exact Hin|].
      unfold Suspend, GetType12. unmonad. cbn.
      rewrite (proj2 (Z.ltb_lt _ _) Hin). cbn. rewrite Hty. reflexivity.
  - right. left. split; [exact Hout|].
    unfold Suspend. unmonad. cbn.
    rewrite (proj2 (Z.ltb_ge _ _) Hout). reflexivity.
Qed.

(** X19: a query of a kind other than timestamp cannot be set up or ended.
    [Initialize] stops at the assertion of [GetHeapType12] (line 101) before
    any device call, so no heap or region exists and no device outcome is
    consumed; [End] resets the counter to 0 and then stops at the assertion of
    [GetType12] (line 88) inside [Suspend], with nothing recorded and
    [m_EndedCommandListID] not moved. *)
Theorem other_kind_stops_at_assertion (w : World) :
  m_Type w = e_QUERY_OTHER ->
  Initialize w = Abort (AssertFailed 101) w
  /\ (0 < m_InstancesPerQuery w ->
      End w = Abort (AssertFailed 88) (set_m_CurrentInstance 0 w)
      /\ QueryEnd w = Abort (AssertFailed 88) (set_m_CurrentInstance 0 w)).
Proof.
  intros Hty. split.
  - unfold Initialize, GetHeapType12. unmonad. cbn. rewrite Hty. reflexivity.
  - intros Hcap.
    assert (H : End w = Abort (AssertFailed 88) (set_m_CurrentInstance 0 w)).
    { unfold End, EndInternal, Suspend, GetType12. unmonad. cbn.
      rewrite (proj2 (Z.ltb_lt _ _) Hcap). cbn.
      rewrite (proj2 (Z.ltb_lt _ _) Hcap). cbn. rewrite Hty. reflexivity. }
    split; exact H.
Qed.

Lemma other_kind_stops_at_assertion_witness :
  let w := fresh_world e_QUERY_OTHER 4 [7] [] in
  Initialize w = Abort (AssertFailed 101) w
  /\ (0 < m_InstancesPerQuery w ->
      End w = Abort (AssertFailed 88) (set_m_CurrentInstance 0 w)
      /\ QueryEnd w = Abort (AssertFailed 88) (set_m_CurrentInstance 0 w)).
Proof.
  intros w. apply (other_kind_stops_at_assertion w). reflexivity.
Defined.

(** X20: with a capacity of one instance [AdvanceInstance] never returns.
    Either it is entered out of range (line 267), or it takes the
    capacity-exhausted branch, which ends with [m_CurrentInstance] set to 1
    and fails the closing assertion [m_CurrentInstance < m_InstancesPerQuery]
    (line 311), unless the mapping threw first. *)
Theorem AdvanceInstance_capacity_one_never_returns (w : World) :
  m_InstancesPerQuery w = 1 ->
  0 <= m_CurrentInstance w ->
  (forall w', AdvanceInstance w <> Ok tt w')
  /\ (m_CurrentInstance w = 0 -> device_ok w -> (0 < length (ResultBuffer w))%nat ->
      AdvanceInstance w = Abort (AssertFailed 311) (fold_world w)
      /\ m_CurrentInstance (fold_world w) = m_InstancesPerQuery w).
Proof.
  intros Hcap H0. split.
  - intros w'. unfold AdvanceInstance. unmonad. cbn. rewrite Hcap.
    destruct (Z.ltb_spec (m_CurrentInstance w) 1) as [Hlt|Hge]; cbn; [|discriminate].
    assert (Hcur : m_CurrentInstance w = 0) by lia. rewrite Hcur.
    change (wrap32 (0 + 1) <? 1) with false. cbn.
    rewrite WaitForCompletion_ok. cbn.
    unfold Map, next_fault, ThrowFailure. unmonad. cbn.
    destruct (Faults (waited w)) as [|f fs]; cbn.
    + change (GetDataSize12 `mod` sizeof_UINT64 =? 0) with true. cbn. discriminate.
    + destruct (FAILED (fault_hr f)); cbn; [discriminate|].
      change (GetDataSize12 `mod` sizeof_UINT64 =? 0) with true. cbn. discriminate.
  - intros Hcur Hdev Hlen.
    rewrite AdvanceInstance_fold by (rewrite ?Hcur, ?Hcap; try assumption; lia).
    rewrite Hcap. split; reflexivity.
Qed.

Lemma AdvanceInstance_capacity_one_never_returns_witness :
  let w := world_of ((Initialize >> Suspend) (fresh_world e_QUERY_TIMESTAMP 1 [7] [])) in
  (forall w', AdvanceInstance w <> Ok tt w')
  /\ (m_CurrentInstance w = 0 -> device_ok w -> (0 < length (ResultBuffer w))%nat ->
      AdvanceInstance w = Abort (AssertFailed 311) (fold_world w)
      /\ m_CurrentInstance (fold_world w) = m_InstancesPerQuery w).
Proof.
  intros w. apply (AdvanceInstance_capacity_one_never_returns w).
  - reflexivity.
  - vm_compute. discriminate.
Defined.
